(** * geo-patrol-server: the request handlers of [server.js]

    A shallow embedding of the two revisions of [server.js] (the one on a
    single [mysql2] connection with callbacks, and the one on a
    [mysql2/promise] pool) and the properties of its routes:
    [POST /api/register], [POST /api/login], [POST /api/laporan],
    [GET /api/laporan], [GET /] and [GET /init-db].

    The handlers are state-passing functions over the two tables and the
    uploads directory.  What a request reads from outside (the clocks, the
    salt [bcrypt] draws, a failure of the database driver) is an explicit
    [Env].  The npm packages [bcrypt], [jsonwebtoken] and the [path] module
    are operations of a class [Libs]. *)

From Stdlib Require Import ZArith Lia Ascii.
From stdpp Require Import base tactics option list strings gmap sorting pretty.

Local Open Scope Z_scope.

(** ** JavaScript values the handlers test *)

(** A property read from [req.body] or [req.headers] is a string or
    [undefined]; [!x] holds of [undefined] and of the empty string. *)
Definition falsy (x : option string) : bool :=
  match x with
  | None => true
  | Some s => bool_decide (s = "")
  end.

(** [s.split(c)] for a one-character separator [c]: the pieces between the
    occurrences of [c], of which there is always at least one. *)
Fixpoint split (c : ascii) (s : string) : list string :=
  match s with
  | EmptyString => [EmptyString]
  | String a s' =>
      if bool_decide (a = c) then EmptyString :: split c s'
      else match split c s' with
           | [] => [String a EmptyString]
           | w :: ws => String a w :: ws
           end
  end.

(** [c] does not occur in [s]. *)
Fixpoint lacks (c : ascii) (s : string) : bool :=
  match s with
  | EmptyString => true
  | String a s' => negb (bool_decide (a = c)) && lacks c s'
  end.

(** ** Data model *)

(** The payload [jwt.verify] hands back for a token of [POST /api/login]:
    the two fields the handler signs and the two [jwt.sign] adds. *)
Module authData.
Record t := mk { id : Z; username : string; iat : Z; exp : Z }.
End authData.

(** Rows of [users], columns as in [CREATE TABLE users]. *)
Module users.
Record row := mk {
  id : Z;
  username : string;
  password_hash : string;
  created_at : Z
}.
End users.

(** Rows of [laporan_pengiriman]. *)
Module laporan_pengiriman.
Record row := mk {
  id : Z;
  id_kurir : Z;
  no_resi : string;
  foto_path : string;
  latitude : string;
  longitude : string;
  status : string;
  created_at : Z
}.
End laporan_pengiriman.

(** The database: both tables in insertion order. *)
Record Db := mkDb {
  tbl_users : list users.row;
  tbl_laporan : list laporan_pengiriman.row
}.

(** The server's state: the database and the [uploads] directory (file
    name to content). *)
Record State := mkState {
  db : Db;
  uploads : gmap string string
}.

(** The error object of a rejected query. *)
Record DbErr := mkDbErr { err_code : string; err_message : string }.

(** What one request reads from outside the state. *)
Record Env := mkEnv {
  date_now : Z;               (* [Date.now()] when the token is signed or verified, ms *)
  upload_now : Z;             (* [Date.now()] when multer names the file, ms *)
  current_timestamp : Z;      (* [CURRENT_TIMESTAMP] of the database, whole seconds *)
  gen_salt : string;          (* the salt [bcrypt.hash] generates *)
  db_fault : option DbErr     (* the driver's error, when the query is rejected for a
                                 reason other than a duplicate key *)
}.

(** [process.env], as far as the handlers read it. *)
Record Config := mkConfig {
  JWT_SECRET : option string;   (* [process.env.JWT_SECRET] *)
  dirname : string              (* [__dirname] *)
}.

(** The file part [foto] of a multipart request. *)
Record Upload := mkUpload { originalname : string; content : string }.

(** [req.file] as multer's disk storage leaves it. *)
Record File := mkFile { filename : string; path : string }.

(** A request.  The members of the body the handlers read are strings,
    or absent. *)
Record Req := mkReq {
  headers : gmap string string;   (* header names in lower case *)
  body : gmap string string;      (* JSON members or multipart text fields *)
  foto : option Upload;
  user : option authData.t;       (* [req.user] *)
  file : option File              (* [req.file] *)
}.

Inductive Body :=
  | JsonError (error : string)
  | JsonMessage (message : string)
  | JsonLogin (message token : string)
  | JsonRows (rows : list laporan_pengiriman.row)
  | Text (text : string).

Record Response := mkRes { status : Z; payload : Body }.

Inductive Variant := Callback | Pool.

Inductive Endpoint :=
  | PostRegister | PostLogin | PostLaporan | GetLaporan | GetRoot | GetInitDb.

(** ** The packages the handlers call *)

Class Libs := {
  (** [bcrypt.hash(data, rounds)], by the salt it generates. *)
  bcrypt_hash : string → Z → string → string;
  (** [bcrypt.compare(data, encrypted)]. *)
  bcrypt_compare : string → string → bool;
  (** The compact serialisation of a payload and its signature, and its
      inverse on well-formed tokens. *)
  jwt_encode : authData.t → string → string;
  jwt_decode : string → option (authData.t * string);
  (** The HS256 signature of a payload under a secret. *)
  jwt_hmac : string → authData.t → string;
  (** [path.extname]. *)
  path_extname : string → string
}.

(** What the end-to-end flow needs of the packages. *)
Class LibLaws (L : Libs) : Prop := {
  bcrypt_compare_hash : ∀ data rounds salt,
    bcrypt_compare data (bcrypt_hash data rounds salt) = true;
  jwt_decode_encode : ∀ p sg, jwt_decode (jwt_encode p sg) = Some (p, sg);
  jwt_encode_nonempty : ∀ p sg, jwt_encode p sg ≠ "";
  jwt_encode_no_space : ∀ p sg, lacks " " (jwt_encode p sg) = true
}.

Inductive JwtError :=
  | JwtMustBeProvided | JwtMalformed | InvalidSignature | TokenExpired.

Section Jwt.
Context `{L : Libs}.

(** [jwt.sign({id, username}, secret, {expiresIn: '1h'})] at clock [now]
    (ms): [iat] is the clock in seconds and [exp] is 3600 s later. *)
Definition jwt_sign (id : Z) (username secret : string) (now : Z) : string :=
  let iat := now `div` 1000 in
  let p := authData.mk id username iat (iat + 3600) in
  jwt_encode p (jwt_hmac secret p).

(** [jwt.verify(token, secret, cb)] at clock [now] (ms): a missing or
    empty token, one that does not decode, one whose signature is not the
    payload's under [secret], and one whose [exp] is reached are errors. *)
Definition jwt_verify (token : option string) (secret : string) (now : Z)
    : JwtError + authData.t :=
  match token with
  | None => inl JwtMustBeProvided
  | Some t =>
      if bool_decide (t = "") then inl JwtMustBeProvided
      else match jwt_decode t with
           | None => inl JwtMalformed
           | Some (p, sg) =>
               if bool_decide (sg = jwt_hmac secret p) then
                 if bool_decide (authData.exp p ≤ now `div` 1000)
                 then inl TokenExpired
                 else inr p
               else inl InvalidSignature
           end
  end.
End Jwt.

(** ** The database *)

(** The value [AUTO_INCREMENT] gives the next row: above every id in use. *)
Definition auto_increment (ids : list Z) : Z := 1 + foldr Z.max 0 ids.

Definition ER_DUP_ENTRY : DbErr :=
  mkDbErr "ER_DUP_ENTRY" "Duplicate entry for key 'users.username'".

(** [INSERT INTO users (username, password_hash) VALUES (?, ?)]; the
    column [username] is [UNIQUE]. *)
Definition insert_user (e : Env) (d : Db) (username password_hash : string)
    : DbErr + Db :=
  match db_fault e with
  | Some err => inl err
  | None =>
      if existsb (λ u, bool_decide (users.username u = username)) (tbl_users d)
      then inl ER_DUP_ENTRY
      else inr (mkDb
        (tbl_users d ++
           [users.mk (auto_increment (users.id <$> tbl_users d))
                     username password_hash (current_timestamp e)])
        (tbl_laporan d))
  end.

(** [SELECT * FROM users WHERE username = ?]; the comparison of the
    column is taken to be equality of strings, here and in the [UNIQUE]
    check of the insert. *)
Definition select_user (e : Env) (d : Db) (username : string)
    : DbErr + list users.row :=
  match db_fault e with
  | Some err => inl err
  | None =>
      inr (filter (λ u, users.username u = username) (tbl_users d))
  end.

(** [INSERT INTO laporan_pengiriman (id_kurir, no_resi, foto_path,
    latitude, longitude, status) VALUES (?, ?, ?, ?, ?, 'Terkirim')]. *)
Definition insert_laporan (e : Env) (d : Db)
    (id_kurir : Z) (no_resi foto_path latitude longitude : string)
    : DbErr + Db :=
  match db_fault e with
  | Some err => inl err
  | None =>
      inr (mkDb (tbl_users d)
        (tbl_laporan d ++
           [laporan_pengiriman.mk
              (auto_increment (laporan_pengiriman.id <$> tbl_laporan d))
              id_kurir no_resi foto_path latitude longitude
              "Terkirim" (current_timestamp e)]))
  end.

(** [ORDER BY created_at DESC]: a row stands before every row that is not
    more recent. *)
Definition created_desc (a b : laporan_pengiriman.row) : Prop :=
  laporan_pengiriman.created_at b ≤ laporan_pengiriman.created_at a.

Global Instance created_desc_dec : RelDecision created_desc.
Proof. intros a b. unfold created_desc. apply _. Defined.

(** [SELECT * FROM laporan_pengiriman WHERE id_kurir = ?
    ORDER BY created_at DESC]. *)
Definition select_laporan (e : Env) (d : Db) (id_kurir : Z)
    : DbErr + list laporan_pengiriman.row :=
  match db_fault e with
  | Some err => inl err
  | None =>
      inr (merge_sort created_desc
             (filter (λ r, laporan_pengiriman.id_kurir r = id_kurir)
                     (tbl_laporan d)))
  end.

(** The two [CREATE TABLE IF NOT EXISTS] of [/init-db]; the tables of [Db]
    exist, so the statements change nothing when they run. *)
Definition create_tables (e : Env) (d : Db) : DbErr + Db :=
  match db_fault e with
  | Some err => inl err
  | None => inr d
  end.

(** ** The handlers *)

Definition set_user (req : Req) (a : authData.t) : Req :=
  mkReq (headers req) (body req) (foto req) (Some a) (file req).

Definition set_file (req : Req) (f : File) : Req :=
  mkReq (headers req) (body req) (foto req) (user req) (Some f).

Definition json (code : Z) (b : Body) : Response := mkRes code b.

Section Server.
Context `{L : Libs} (v : Variant) (cfg : Config).

(** [const SECRET_KEY]: the constant in the first revision,
    [process.env.JWT_SECRET || "kunci_rahasia_akses"] in the second. *)
Definition SECRET_KEY : string :=
  match v with
  | Callback => "kunci_rahasia_akses"
  | Pool =>
      if falsy (JWT_SECRET cfg) then "kunci_rahasia_akses"
      else default "" (JWT_SECRET cfg)
  end.

(** The directory multer writes to, as it stands in [req.file.path]:
    [./uploads] joined with a file name, or [path.join(__dirname,
    'uploads')]. *)
Definition uploadDir : string :=
  match v with
  | Callback => "uploads"
  | Pool => dirname cfg +:+ "/uploads"
  end.

(** [upload.single('foto')] on disk storage: a file part is written to
    the uploads directory under [Date.now() + path.extname(originalname)]
    and described in [req.file]; without one nothing happens. *)
Definition upload_single (e : Env) (st : State) (req : Req) : State * Req :=
  match foto req with
  | None => (st, req)
  | Some part =>
      let name := pretty (upload_now e) +:+ path_extname (originalname part) in
      (mkState (db st) (<[name := content part]> (uploads st)),
       set_file req (mkFile name (uploadDir +:+ "/" +:+ name)))
  end.

(** [function verifyToken(req, res, next)]: a response, or the request
    with [req.user] set that [next()] hands to the following handler. *)
Definition verifyToken (e : Env) (req : Req) : Response + Req :=
  let bearerHeader := headers req !! "authorization" in
  if falsy bearerHeader then
    inl (json 403 (JsonError "Token tidak ditemukan"))
  else
    let token := split " " (default "" bearerHeader) !! 1%nat in
    match jwt_verify token SECRET_KEY (date_now e) with
    | inl _ => inl (json 403 (JsonError "Token tidak valid"))
    | inr authData => inr (set_user req authData)
    end.

(** [app.post('/api/register', ...)].  [bcrypt.hash] does not throw on a
    string, so what is caught is the error of the insert. *)
Definition register (e : Env) (st : State) (req : Req) : Response * State :=
  let username := body req !! "username" in
  let password := body req !! "password" in
  if falsy username || falsy password then
    (json 400 (JsonError "Username dan Password wajib diisi!"), st)
  else
    let hashedPassword := bcrypt_hash (default "" password) 10 (gen_salt e) in
    match insert_user e (db st) (default "" username) hashedPassword with
    | inl err =>
        if bool_decide (err_code err = "ER_DUP_ENTRY") then
          (json 400 (JsonError "Username sudah digunakan!"), st)
        else
          (json 500 (JsonError "Gagal registrasi"), st)
    | inr d' =>
        (json 201 (JsonMessage "Registrasi Berhasil!"), mkState d' (uploads st))
    end.

(** [app.post('/api/login', ...)]. *)
Definition login (e : Env) (st : State) (req : Req) : Response * State :=
  let username := body req !! "username" in
  let password := body req !! "password" in
  if falsy username || falsy password then
    (json 400 (JsonError "Username dan Password wajib diisi!"), st)
  else
    match select_user e (db st) (default "" username) with
    | inl _ => (json 500 (JsonError "Server error"), st)
    | inr [] => (json 401 (JsonError "Username tidak ditemukan!"), st)
    | inr (user :: _) =>
        if negb (bcrypt_compare (default "" password) (users.password_hash user))
        then (json 401 (JsonError "Password salah!"), st)
        else
          let token := jwt_sign (users.id user) (users.username user)
                                SECRET_KEY (date_now e) in
          (json 200 (JsonLogin "Login sukses" token), st)
    end.

(** What reading [req.user.id] of an unset [req.user] ends in: the
    [catch] of the second revision, Express's error handler in the
    first.  No route reaches it: [verifyToken] sets [req.user]. *)
Definition no_user (generic : string) : Response :=
  match v with
  | Callback => mkRes 500 (Text "TypeError: Cannot read properties of undefined (reading 'id')")
  | Pool => json 500 (JsonError generic)
  end.

(** The last handler of [app.post('/api/laporan', verifyToken,
    upload.single('foto'), ...)].  The first revision stores
    [req.file.path], the second [req.file.filename]. *)
Definition simpan_laporan (e : Env) (st : State) (req : Req) : Response * State :=
  let no_resi := body req !! "no_resi" in
  let latitude := body req !! "latitude" in
  let longitude := body req !! "longitude" in
  if falsy no_resi || falsy latitude || falsy longitude then
    (json 400 (JsonError "Data tidak lengkap!"), st)
  else
    match file req with
    | None => (json 400 (JsonError "Foto wajib diupload!"), st)
    | Some f =>
        match user req with
        | None => (no_user "Gagal simpan laporan", st)
        | Some u =>
            let fotoPath := match v with Callback => path f | Pool => filename f end in
            match insert_laporan e (db st) (authData.id u) (default "" no_resi)
                    fotoPath (default "" latitude) (default "" longitude) with
            | inl _ => (json 500 (JsonError "Gagal simpan laporan"), st)
            | inr d' =>
                (json 200 (JsonMessage "Laporan berhasil disimpan"),
                 mkState d' (uploads st))
            end
        end
    end.

(** The last handler of [app.get('/api/laporan', verifyToken, ...)]. *)
Definition history_laporan (e : Env) (st : State) (req : Req) : Response * State :=
  match user req with
  | None => (no_user "Gagal ambil data", st)
  | Some u =>
      match select_laporan e (db st) (authData.id u) with
      | inl _ => (json 500 (JsonError "Gagal ambil data"), st)
      | inr rows => (json 200 (JsonRows rows), st)
      end
  end.

(** [app.get('/init-db', ...)] of the second revision. *)
Definition init_db (e : Env) (st : State) : Response * State :=
  match create_tables e (db st) with
  | inl err => (mkRes 500 (Text (err_message err)), st)
  | inr d' =>
      (mkRes 200 (Text "Database initialized successfully 🚀"), mkState d' (uploads st))
  end.

(** Express's answer to a path no route matches. *)
Definition not_found (what : string) : Response :=
  mkRes 404 (Text ("Cannot " +:+ what)).

(** The routes in the order [app] registers the middleware. *)
Definition app (e : Env) (st : State) (ep : Endpoint) (req : Req)
    : Response * State :=
  match ep with
  | PostRegister => register e st req
  | PostLogin => login e st req
  | PostLaporan =>
      match verifyToken e req with
      | inl res => (res, st)
      | inr req1 =>
          let '(st1, req2) := upload_single e st req1 in
          simpan_laporan e st1 req2
      end
  | GetLaporan =>
      match verifyToken e req with
      | inl res => (res, st)
      | inr req1 => history_laporan e st req1
      end
  | GetRoot =>
      match v with
      | Pool => (mkRes 200 (Text "API GEO PATROL RUNNING"), st)
      | Callback => (not_found "GET /", st)
      end
  | GetInitDb =>
      match v with
      | Pool => init_db e st
      | Callback => (not_found "GET /init-db", st)
      end
  end.
End Server.

(** ** An instance of the packages

    Hash, token and signature as injective bit-string encodings of their
    arguments: the handlers can be run on it, and it meets [LibLaws]. *)
Module Ideal.
Fixpoint pos_bits (p : positive) : string :=
  match p with
  | xH => EmptyString
  | xO q => String "0" (pos_bits q)
  | xI q => String "1" (pos_bits q)
  end.

Fixpoint bits_pos (s : string) : option positive :=
  match s with
  | EmptyString => Some xH
  | String a s' =>
      if bool_decide (a = "0"%char) then xO <$> bits_pos s'
      else if bool_decide (a = "1"%char) then xI <$> bits_pos s'
      else None
  end.

Definition pack `{Countable A} (x : A) : string := pos_bits (encode x).
Definition unpack `{Countable A} (s : string) : option A :=
  bits_pos s ≫= decode.

Definition fields (p : authData.t) : Z * string * Z * Z :=
  (authData.id p, authData.username p, authData.iat p, authData.exp p).
Definition of_fields (f : Z * string * Z * Z) : authData.t :=
  let '(i, u, a, x) := f in authData.mk i u a x.

Definition hash (data : string) (rounds : Z) (salt : string) : string :=
  pack (data, rounds, salt).

Definition compare (data encrypted : string) : bool :=
  match unpack (A := string * Z * string) encrypted with
  | Some (d, _, _) => bool_decide (d = data)
  | None => false
  end.

Definition encode_token (p : authData.t) (sg : string) : string :=
  String "j" (pack (fields p, sg)).

Definition decode_token (t : string) : option (authData.t * string) :=
  match t with
  | String a s =>
      if bool_decide (a = "j"%char) then
        (λ x : Z * string * Z * Z * string, (of_fields x.1, x.2)) <$> unpack s
      else None
  | EmptyString => None
  end.

Definition hmac (secret : string) (p : authData.t) : string :=
  pack (secret, fields p).

(** A stand-in for [path.extname] on plain file names: from the last dot
    on, or nothing.  It differs from Node's on a name whose only dot is
    its first character, where Node gives nothing; the properties are
    stated for every [path_extname]. *)
Fixpoint extname (s : string) : string :=
  match s with
  | EmptyString => EmptyString
  | String a s' =>
      match extname s' with
      | EmptyString => if bool_decide (a = "."%char) then s else EmptyString
      | r => r
      end
  end.

Definition libs : Libs :=
  {| bcrypt_hash := hash;
     bcrypt_compare := compare;
     jwt_encode := encode_token;
     jwt_decode := decode_token;
     jwt_hmac := hmac;
     path_extname := extname |}.
End Ideal.

(** ** Sample requests and states *)
Module Sample.
Definition cfg : Config := mkConfig None "/app".

Definition env (now : Z) : Env :=
  mkEnv now now (now `div` 1000) "N9qo8uLOickgx2ZMRZoMye" None.

Definition lost : DbErr :=
  mkDbErr "PROTOCOL_CONNECTION_LOST" "Connection lost: The server closed the connection.".

(** The same instant with the database unreachable. *)
Definition env_down (now : Z) : Env :=
  mkEnv now now (now `div` 1000) "N9qo8uLOickgx2ZMRZoMye" (Some lost).

Definition empty : State := mkState (mkDb [] []) ∅.

Definition credentials (username password : string) : Req :=
  mkReq ∅ {[ "username" := username; "password" := password ]} None None None.

Definition bearer (header : string) : Req :=
  mkReq {[ "authorization" := header ]} ∅ None None None.

Definition report (header no_resi latitude longitude : string) (part : option Upload)
    : Req :=
  mkReq {[ "authorization" := header ]}
        {[ "no_resi" := no_resi; "latitude" := latitude; "longitude" := longitude ]}
        part None None.

Definition photo : Upload := mkUpload "bukti.jpg" "JFIF".

Definition anonymous : Req := mkReq ∅ ∅ None None None.

(** The state after [alice] registered with [secret123] on the empty
    database, at 1700000000 s. *)
Definition registered : State :=
  (register (L := Ideal.libs) (env 1700000000000) empty
     (credentials "alice" "secret123")).2.

(** The token [POST /api/login] issues to courier 1 at 1700000000 s, one
    with a signature that is not its payload's, and a string that is no
    token. *)
Definition token : string :=
  jwt_sign (L := Ideal.libs) 1 "alice" "kunci_rahasia_akses" 1700000000000.
Definition forged : string :=
  Ideal.encode_token (authData.mk 1 "alice" 1700000000 1700003600) "forged".
Definition garbage : string := "abc.def.ghi".

Definition kurir (id : Z) : authData.t := authData.mk id "alice" 1700000000 1700003600.

(** A request as [verifyToken] and multer hand it to the last handler. *)
Definition handled (id : Z) (no_resi latitude longitude : string) : Req :=
  mkReq ∅
        {[ "no_resi" := no_resi; "latitude" := latitude; "longitude" := longitude ]}
        (Some photo) (Some (kurir id))
        (Some (mkFile "1700000000000.jpg" "uploads/1700000000000.jpg")).

(** Three reports handled within the second 1700000000: two of courier 1
    and, between them, one of courier 2. *)
Definition history : State :=
  let st1 := (simpan_laporan Pool (env 1700000000000) empty
                (handled 1 "RESI1" "-6.2" "106.8")).2 in
  let st2 := (simpan_laporan Pool (env 1700000000200) st1
                (handled 2 "RESI9" "-6.3" "106.9")).2 in
  (simpan_laporan Pool (env 1700000000400) st2
     (handled 1 "RESI2" "-6.2" "106.8")).2.

(** [GET /api/laporan] as [verifyToken] hands it on for a courier. *)
Definition identified (id : Z) : Req := mkReq ∅ ∅ None (Some (kurir id)) None.
End Sample.

(** ** Vocabulary of the properties *)

(** The responses of the routes. *)
Definition missing_token : Response := mkRes 403 (JsonError "Token tidak ditemukan").
Definition invalid_token : Response := mkRes 403 (JsonError "Token tidak valid").

(** The bearer credential a request presents: the second word of its
    [Authorization] header, when there is one and it is not empty. *)
Definition credential (req : Req) : option string :=
  match headers req !! "authorization" with
  | None => None
  | Some h =>
      match split " " h !! 1%nat with
      | None => None
      | Some t => if bool_decide (t = "") then None else Some t
      end
  end.

(** C6 as the claim words it: a request that presents no bearer
    credential is answered "Token tidak ditemukan". *)
Definition gate_as_stated `{L : Libs} (v : Variant) (cfg : Config)
    (e : Env) (req : Req) : Prop :=
  credential req = None → verifyToken v cfg e req = inl missing_token.

Definition incomplete : Response := mkRes 400 (JsonError "Data tidak lengkap!").
Definition no_photo : Response := mkRes 400 (JsonError "Foto wajib diupload!").

(** The three text fields the handler requires. *)
Definition fields_missing (req : Req) : bool :=
  falsy (body req !! "no_resi") || falsy (body req !! "latitude")
  || falsy (body req !! "longitude").

Definition credentials_missing (req : Req) : bool :=
  falsy (body req !! "username") || falsy (body req !! "password").

(** The rows of [users] a user name selects. *)
Definition matching (st : State) (req : Req) : list users.row :=
  filter (λ u, users.username u = default "" (body req !! "username"))
         (tbl_users (db st)).

(** C1 as the claim words it: four outcomes, decided by the request and
    the rows of [users] alone. *)
Definition login_as_stated `{L : Libs} (v : Variant) (cfg : Config)
    (e : Env) (st : State) (req : Req) : Prop :=
  let res := (login v cfg e st req).1 in
  if credentials_missing req then status res = 400
  else match matching st req with
       | [] => status res = 401
       | user :: _ =>
           if bcrypt_compare (default "" (body req !! "password"))
                             (users.password_hash user)
           then status res = 200
           else status res = 401
       end.

Definition bad_credentials : Response :=
  mkRes 400 (JsonError "Username dan Password wajib diisi!").
Definition duplicate_username : Response :=
  mkRes 400 (JsonError "Username sudah digunakan!").
Definition created : Response := mkRes 201 (JsonMessage "Registrasi Berhasil!").

(** The row [POST /api/register] inserts for a request. *)
Definition new_user `{L : Libs} (e : Env) (st : State) (req : Req) : users.row :=
  users.mk (auto_increment (users.id <$> tbl_users (db st)))
           (default "" (body req !! "username"))
           (bcrypt_hash (default "" (body req !! "password")) 10 (gen_salt e))
           (current_timestamp e).

(** C3 as the claim words it: on a store that holds the user name the
    answer is 400 and the store is unchanged. *)
Definition register_again_as_stated `{L : Libs} (e : Env) (st : State) (req : Req)
    : Prop :=
  matching st req ≠ [] →
  status (register e st req).1 = 400 ∧ (register e st req).2 = st.

(** C7 as the claim words it: 400 and nothing persisted when a field is
    empty, and otherwise 201 and one new row with the hash. *)
Definition register_as_stated `{L : Libs} (e : Env) (st : State) (req : Req) : Prop :=
  if credentials_missing req then
    status (register e st req).1 = 400 ∧ (register e st req).2 = st
  else
    status (register e st req).1 = 201 ∧
    tbl_users (db (register e st req).2) = tbl_users (db st) ++ [new_user e st req].

(** Every row is more recent than the rows after it. *)
Definition strictly_desc (a b : laporan_pengiriman.row) : Prop :=
  laporan_pengiriman.created_at b < laporan_pengiriman.created_at a.

(** The rows of [laporan_pengiriman] of one courier, in table order. *)
Definition reports_of (st : State) (id_kurir : Z) : list laporan_pengiriman.row :=
  filter (λ r, laporan_pengiriman.id_kurir r = id_kurir) (tbl_laporan (db st)).

(** C5 as the claim words it: the rows of the courier and no others, each
    more recent than the next. *)
Definition history_as_stated (v : Variant) (e : Env) (st : State) (req : Req) : Prop :=
  ∀ u, user req = Some u →
  ∃ rows, (history_laporan v e st req).1 = mkRes 200 (JsonRows rows) ∧
          rows ≡ₚ reports_of st (authData.id u) ∧
          StronglySorted strictly_desc rows.

(** C2 as the claim words it: a successful submission adds one row,
    whose [status] is ["delivered"]. *)
Definition submission_as_stated (v : Variant) (e : Env) (st : State) (req : Req) : Prop :=
  status (simpan_laporan v e st req).1 = 200 →
  ∃ r, tbl_laporan (db (simpan_laporan v e st req).2) = tbl_laporan (db st) ++ [r] ∧
       laporan_pengiriman.status r = "delivered".

(** The row [POST /api/laporan] inserts for a handled request. *)
Definition new_laporan (v : Variant) (e : Env) (st : State) (req : Req)
    : laporan_pengiriman.row :=
  laporan_pengiriman.mk
    (auto_increment (laporan_pengiriman.id <$> tbl_laporan (db st)))
    (from_option authData.id 0 (user req))
    (default "" (body req !! "no_resi"))
    (from_option (match v with Callback => path | Pool => filename end) "" (file req))
    (default "" (body req !! "latitude"))
    (default "" (body req !! "longitude"))
    "Terkirim"
    (current_timestamp e).

Definition saved : Response := mkRes 200 (JsonMessage "Laporan berhasil disimpan").

(** The four requests of the end-to-end flow and their responses:
    [alice] registers and logs in, then sends one report and asks for her
    history under the token the login returned. *)
Definition end_to_end `{L : Libs} (v : Variant) (cfg : Config) (e1 e2 e3 e4 : Env)
    (st0 : State) (latitude longitude : string) (part : Upload) : list Response :=
  let alice := Sample.credentials "alice" "secret123" in
  let '(r1, st1) := app v cfg e1 st0 PostRegister alice in
  let '(r2, st2) := app v cfg e2 st1 PostLogin alice in
  let header :=
    "Bearer " +:+ match payload r2 with JsonLogin _ t => t | _ => "" end in
  let '(r3, st3) :=
    app v cfg e3 st2 PostLaporan
      (Sample.report header "RESI1" latitude longitude (Some part)) in
  let '(r4, _) := app v cfg e4 st3 GetLaporan (Sample.bearer header) in
  [r1; r2; r3; r4].

(** The environment [e] with the database rejecting the query by [err]. *)
Definition with_fault (e : Env) (err : DbErr) : Env :=
  mkEnv (date_now e) (upload_now e) (current_timestamp e) (gen_salt e) (Some err).

(** ** Vocabulary of the further properties *)

(** What the keys of the two tables promise: no user name and no id
    twice in [users], no id twice in [laporan_pengiriman], and every id
    one that [AUTO_INCREMENT] gives (from 1 up). *)
Definition db_wf (d : Db) : Prop :=
  NoDup (users.username <$> tbl_users d) ∧
  NoDup (users.id <$> tbl_users d) ∧
  NoDup (laporan_pengiriman.id <$> tbl_laporan d) ∧
  Forall (λ i, 0 < i) (users.id <$> tbl_users d) ∧
  Forall (λ i, 0 < i) (laporan_pengiriman.id <$> tbl_laporan d).

(** The name multer gives an upload. *)
Definition upload_name `{L : Libs} (e : Env) (part : Upload) : string :=
  pretty (upload_now e) +:+ path_extname (originalname part).

(** The status codes a route answers with. *)
Definition statuses (v : Variant) (ep : Endpoint) : list Z :=
  match ep with
  | PostRegister => [201; 400; 500]
  | PostLogin => [200; 400; 401; 500]
  | PostLaporan => [200; 400; 403; 500]
  | GetLaporan => [200; 403; 500]
  | GetRoot => match v with Pool => [200] | Callback => [404] end
  | GetInitDb => match v with Pool => [200; 500] | Callback => [404] end
  end.

(** The state after a sequence of requests, each with what it reads from
    outside. *)
Definition serve `{L : Libs} (v : Variant) (cfg : Config)
    (trace : list (Env * Endpoint * Req)) (st : State) : State :=
  foldl (λ s x, (app v cfg x.1.1 s x.1.2 x.2).2) st trace.

(** * Properties *)

(** ** JavaScript helpers *)

Lemma falsy_true (x : option string) :
  falsy x = true ↔ x = None ∨ x = Some "".
Proof.
  destruct x as [s|]; simpl.
  - rewrite bool_decide_eq_true. split; [intros ->; by right | by intros [|[= ->]]].
  - split; [by left | done].
Qed.

Lemma falsy_false (x : option string) :
  falsy x = false ↔ ∃ s, x = Some s ∧ s ≠ "".
Proof.
  destruct x as [s|]; simpl.
  - rewrite bool_decide_eq_false. split; [by exists s | by intros (? & [= <-] & ?)].
  - split; [done | by intros (? & ? & ?)].
Qed.

Lemma split_nonempty c s : split c s ≠ [].
Proof.
  induction s as [|a s IH]; simpl; [done|].
  case_bool_decide; [done|]. by destruct (split c s).
Qed.

(** A string without the separator is its own single piece. *)
Lemma split_lacks c s : lacks c s = true → split c s = [s].
Proof.
  induction s as [|a s IH]; simpl; [done|].
  intros [Ha Hs]%andb_true_iff. case_bool_decide; [done|].
  by rewrite (IH Hs).
Qed.

(** The pieces of [a c b] are [a], when it lacks the separator, and then
    the pieces of [b]. *)
Lemma split_app c a b :
  lacks c a = true → split c (a +:+ String c b) = a :: split c b.
Proof.
  induction a as [|x a IH]; simpl.
  - intros _. by rewrite bool_decide_eq_true_2.
  - intros [Hx Ha]%andb_true_iff. case_bool_decide; [done|].
    by rewrite (IH Ha).
Qed.

(** The second word of [scheme token]. *)
Lemma split_second scheme token :
  lacks " " scheme = true → lacks " " token = true →
  split " " (scheme +:+ " " +:+ token) !! 1%nat = Some token.
Proof.
  intros Hs Ht.
  change (scheme +:+ " " +:+ token) with (scheme +:+ String " " token).
  by rewrite (split_app _ _ _ Hs), (split_lacks _ _ Ht).
Qed.

(** ** The instance [Ideal.libs] meets the laws *)

Lemma bits_pos_bits p : Ideal.bits_pos (Ideal.pos_bits p) = Some p.
Proof. induction p as [p IH|p IH|]; simpl; by rewrite ?IH. Qed.

Lemma pos_bits_no_space p : lacks " " (Ideal.pos_bits p) = true.
Proof. induction p as [p IH|p IH|]; simpl; by rewrite ?IH. Qed.

Lemma unpack_pack `{Countable A} (x : A) : Ideal.unpack (Ideal.pack x) = Some x.
Proof.
  unfold Ideal.unpack, Ideal.pack. rewrite bits_pos_bits. simpl.
  apply decode_encode.
Qed.

#[export] Instance ideal_laws : LibLaws Ideal.libs.
Proof.
  split; simpl.
  - intros data rounds salt. unfold Ideal.compare, Ideal.hash.
    rewrite unpack_pack. by apply bool_decide_eq_true_2.
  - intros [i u a x] sg. unfold Ideal.decode_token, Ideal.encode_token.
    rewrite unpack_pack. done.
  - done.
  - intros p sg. unfold Ideal.encode_token, Ideal.pack. simpl.
    apply pos_bits_no_space.
Qed.

(** ** The session token verifier *)

Section Verifier.
Context `{L : Libs} (v : Variant) (cfg : Config).

Lemma verifyToken_absent e req :
  falsy (headers req !! "authorization") = true →
  verifyToken v cfg e req = inl missing_token.
Proof. unfold verifyToken. by intros ->. Qed.

(** With a non-empty header the outcome is the one of [jwt.verify] on the
    second word of the header. *)
Lemma verifyToken_present e req h :
  headers req !! "authorization" = Some h → h ≠ "" →
  verifyToken v cfg e req =
    match jwt_verify (split " " h !! 1%nat) (SECRET_KEY v cfg) (date_now e) with
    | inl _ => inl invalid_token
    | inr a => inr (set_user req a)
    end.
Proof.
  intros Hh Hne. unfold verifyToken. rewrite Hh. simpl.
  by rewrite bool_decide_eq_false_2.
Qed.

Lemma jwt_verify_malformed t key now :
  jwt_decode t = None → ∃ err, jwt_verify (Some t) key now = inl err.
Proof.
  intros Hd. unfold jwt_verify. case_bool_decide; [by eexists|].
  rewrite Hd. by eexists.
Qed.

Lemma jwt_verify_signature t p sg key now :
  jwt_decode t = Some (p, sg) → sg ≠ jwt_hmac key p →
  ∃ err, jwt_verify (Some t) key now = inl err.
Proof.
  intros Hd Hs. unfold jwt_verify. case_bool_decide; [by eexists|].
  rewrite Hd. rewrite bool_decide_eq_false_2 by done. by eexists.
Qed.

Lemma jwt_verify_expired t p sg key now :
  jwt_decode t = Some (p, sg) → authData.exp p ≤ now `div` 1000 →
  ∃ err, jwt_verify (Some t) key now = inl err.
Proof.
  intros Hd Hx. unfold jwt_verify. case_bool_decide; [by eexists|].
  rewrite Hd. case_bool_decide; [|by eexists].
  rewrite bool_decide_eq_true_2 by done. by eexists.
Qed.

Lemma jwt_verify_ok t p key now :
  t ≠ "" → jwt_decode t = Some (p, jwt_hmac key p) →
  now `div` 1000 < authData.exp p →
  jwt_verify (Some t) key now = inr p.
Proof.
  intros Ht Hd Hx. unfold jwt_verify.
  rewrite bool_decide_eq_false_2 by done. rewrite Hd.
  rewrite bool_decide_eq_true_2 by done.
  rewrite bool_decide_eq_false_2 by lia. done.
Qed.

(** C6, amended.  On a protected request [verifyToken] answers 403
    "Token tidak ditemukan" when no [Authorization] header is presented,
    or an empty one.  On a non-empty header it answers 403 "Token tidak
    valid" when the header has no second word or an empty one (no token
    after the scheme word), when the token does not decode (malformed),
    when its signature is not the one of its payload under [SECRET_KEY]
    (invalid signature), and when its [exp] is reached (expired);
    otherwise it hands the request to the next handler with [req.user]
    set to the token's payload (id and username), and that is all it
    does: the handlers of both protected routes then run on this request
    and the state the request found. *)
Theorem verifyToken_gate e st req :
  let key := SECRET_KEY v cfg in
  let now := date_now e `div` 1000 in
  (falsy (headers req !! "authorization") = true →
     verifyToken v cfg e req = inl missing_token) ∧
  (∀ h, headers req !! "authorization" = Some h → h ≠ "" →
     (split " " h !! 1%nat = None ∨ split " " h !! 1%nat = Some "" →
        verifyToken v cfg e req = inl invalid_token) ∧
     (∀ t, split " " h !! 1%nat = Some t →
        (jwt_decode t = None → verifyToken v cfg e req = inl invalid_token) ∧
        (∀ p sg, jwt_decode t = Some (p, sg) →
           (sg ≠ jwt_hmac key p → verifyToken v cfg e req = inl invalid_token) ∧
           (authData.exp p ≤ now → verifyToken v cfg e req = inl invalid_token) ∧
           (t ≠ "" → sg = jwt_hmac key p → now < authData.exp p →
              verifyToken v cfg e req = inr (set_user req p) ∧
              user (set_user req p) = Some p ∧
              app v cfg e st GetLaporan req =
                history_laporan v e st (set_user req p) ∧
              app v cfg e st PostLaporan req =
                (let '(st1, req2) := upload_single v cfg e st (set_user req p) in
                 simpan_laporan v e st1 req2))))).
Proof.
  intros key now. subst key now. split; [apply verifyToken_absent|].
  intros h Hh Hne. split.
  { intros Hw. rewrite (verifyToken_present _ _ _ Hh Hne).
    by destruct Hw as [-> | ->]. }
  intros t Ht. split; [|intros p sg Hd; split; [|split]].
  - intros Hd. rewrite (verifyToken_present _ _ _ Hh Hne), Ht.
    by destruct (jwt_verify_malformed t (SECRET_KEY v cfg) (date_now e) Hd)
      as [err ->].
  - intros Hs. rewrite (verifyToken_present _ _ _ Hh Hne), Ht.
    by destruct (jwt_verify_signature t p sg _ (date_now e) Hd Hs) as [err ->].
  - intros Hx. rewrite (verifyToken_present _ _ _ Hh Hne), Ht.
    by destruct (jwt_verify_expired t p sg (SECRET_KEY v cfg) _ Hd Hx)
      as [err ->].
  - intros Hn -> Hx. unfold app.
    rewrite (verifyToken_present _ _ _ Hh Hne), Ht.
    by rewrite (jwt_verify_ok t p _ _ Hn Hd Hx).
Qed.
End Verifier.

(** C6, counterexample.  The header [Bearer] alone presents no
    credential, and the answer is "Token tidak valid", not "Token tidak
    ditemukan". *)
Lemma gate_as_stated_fails :
  ¬ gate_as_stated (L := Ideal.libs) Pool Sample.cfg (Sample.env 1700000001000)
      (Sample.bearer "Bearer").
Proof. intros H. specialize (H eq_refl). vm_compute in H. discriminate. Qed.

(** The cases of [verifyToken_gate] on [Ideal.libs]: no header, the
    scheme word alone, the scheme word and a space, a string that is no
    token, a forged signature, the token an hour after its issue, and the
    token a second after its issue. *)
Lemma verifyToken_gate_witness :
  verifyToken (L := Ideal.libs) Pool Sample.cfg (Sample.env 1700000001000)
    Sample.anonymous = inl missing_token ∧
  verifyToken (L := Ideal.libs) Pool Sample.cfg (Sample.env 1700000001000)
    (Sample.bearer "Bearer") = inl invalid_token ∧
  verifyToken (L := Ideal.libs) Pool Sample.cfg (Sample.env 1700000001000)
    (Sample.bearer "Bearer ") = inl invalid_token ∧
  verifyToken (L := Ideal.libs) Pool Sample.cfg (Sample.env 1700000001000)
    (Sample.bearer ("Bearer " +:+ Sample.garbage)) = inl invalid_token ∧
  verifyToken (L := Ideal.libs) Pool Sample.cfg (Sample.env 1700000001000)
    (Sample.bearer ("Bearer " +:+ Sample.forged)) = inl invalid_token ∧
  verifyToken (L := Ideal.libs) Pool Sample.cfg (Sample.env 1700003600000)
    (Sample.bearer ("Bearer " +:+ Sample.token)) = inl invalid_token ∧
  verifyToken (L := Ideal.libs) Pool Sample.cfg (Sample.env 1700000001000)
    (Sample.bearer ("Bearer " +:+ Sample.token))
  = inr (set_user (Sample.bearer ("Bearer " +:+ Sample.token)) (Sample.kurir 1)).
Proof.
  split; [|split; [|split; [|split; [|split; [|split]]]]].
  - apply (verifyToken_gate (L := Ideal.libs) Pool Sample.cfg
             (Sample.env 1700000001000) Sample.empty Sample.anonymous).
    reflexivity.
  - destruct (verifyToken_gate (L := Ideal.libs) Pool Sample.cfg
                (Sample.env 1700000001000) Sample.empty
                (Sample.bearer "Bearer")) as [_ H].
    destruct (H "Bearer") as [Hw _]; [reflexivity | discriminate|].
    apply Hw. left. reflexivity.
  - destruct (verifyToken_gate (L := Ideal.libs) Pool Sample.cfg
                (Sample.env 1700000001000) Sample.empty
                (Sample.bearer "Bearer ")) as [_ H].
    destruct (H "Bearer ") as [Hw _]; [reflexivity | discriminate|].
    apply Hw. right. reflexivity.
  - destruct (verifyToken_gate (L := Ideal.libs) Pool Sample.cfg
                (Sample.env 1700000001000) Sample.empty
                (Sample.bearer ("Bearer " +:+ Sample.garbage))) as [_ H].
    destruct (H ("Bearer " +:+ Sample.garbage)) as [_ Ht];
      [reflexivity | discriminate|].
    destruct (Ht Sample.garbage) as [Hm _]; [reflexivity|].
    apply Hm. reflexivity.
  - destruct (verifyToken_gate (L := Ideal.libs) Pool Sample.cfg
                (Sample.env 1700000001000) Sample.empty
                (Sample.bearer ("Bearer " +:+ Sample.forged))) as [_ H].
    destruct (H ("Bearer " +:+ Sample.forged)) as [_ Ht];
      [vm_compute; reflexivity | discriminate|].
    destruct (Ht Sample.forged) as [_ Hd]; [vm_compute; reflexivity|].
    destruct (Hd (Sample.kurir 1) "forged") as [Hs _]; [vm_compute; reflexivity|].
    apply Hs. vm_compute. discriminate.
  - destruct (verifyToken_gate (L := Ideal.libs) Pool Sample.cfg
                (Sample.env 1700003600000) Sample.empty
                (Sample.bearer ("Bearer " +:+ Sample.token))) as [_ H].
    destruct (H ("Bearer " +:+ Sample.token)) as [_ Ht];
      [vm_compute; reflexivity | discriminate|].
    destruct (Ht Sample.token) as [_ Hd]; [vm_compute; reflexivity|].
    destruct (Hd (Sample.kurir 1)
                (Ideal.hmac "kunci_rahasia_akses" (Sample.kurir 1)))
      as (_ & Hx & _); [vm_compute; reflexivity|].
    apply Hx. vm_compute. discriminate.
  - destruct (verifyToken_gate (L := Ideal.libs) Pool Sample.cfg
                (Sample.env 1700000001000) Sample.empty
                (Sample.bearer ("Bearer " +:+ Sample.token))) as [_ H].
    destruct (H ("Bearer " +:+ Sample.token)) as [_ Ht];
      [vm_compute; reflexivity | discriminate|].
    destruct (Ht Sample.token) as [_ Hd]; [vm_compute; reflexivity|].
    destruct (Hd (Sample.kurir 1)
                (Ideal.hmac "kunci_rahasia_akses" (Sample.kurir 1)))
      as (_ & _ & Hok); [vm_compute; reflexivity|].
    apply Hok; [discriminate | reflexivity | reflexivity].
Defined.

Section Extraction.
Context `{L : Libs} (v : Variant) (cfg : Config).

Lemma verifyToken_inr e req req1 :
  verifyToken v cfg e req = inr req1 → ∃ p, req1 = set_user req p.
Proof.
  unfold verifyToken. destruct (falsy _); [done|].
  destruct (jwt_verify _ _ _) as [err|p]; [done|].
  intros [= <-]. by exists p.
Qed.

(** C10.  On a non-empty [Authorization] header the verdict of
    [verifyToken] is a function of the second space-separated word of the
    header alone (with the secret and the clock): two requests whose
    headers agree on that word get the same response, or are both let
    through with the same identity.  The scheme word is not looked at: a
    header [scheme token] is let through for every space-free [scheme], not
    only for [Bearer], when [jwt.verify] accepts [token].  A non-empty
    header without a space has no second word and gets 403 "Token tidak
    valid", the answer to an invalid token, not the one to a missing
    token. *)
Theorem verifyToken_second_word e :
  (∀ req1 req2 h1 h2,
     headers req1 !! "authorization" = Some h1 → h1 ≠ "" →
     headers req2 !! "authorization" = Some h2 → h2 ≠ "" →
     split " " h1 !! 1%nat = split " " h2 !! 1%nat →
     sum_map id user (verifyToken v cfg e req1)
     = sum_map id user (verifyToken v cfg e req2)) ∧
  (∀ req scheme token p,
     headers req !! "authorization" = Some (scheme +:+ " " +:+ token) →
     lacks " " scheme = true → lacks " " token = true →
     jwt_verify (Some token) (SECRET_KEY v cfg) (date_now e) = inr p →
     verifyToken v cfg e req = inr (set_user req p)) ∧
  (∀ req h,
     headers req !! "authorization" = Some h → h ≠ "" → lacks " " h = true →
     verifyToken v cfg e req = inl invalid_token ∧
     verifyToken v cfg e req ≠ inl missing_token).
Proof.
  split; [|split].
  - intros req1 req2 h1 h2 H1 N1 H2 N2 Heq.
    rewrite (verifyToken_present _ _ _ _ _ H1 N1),
            (verifyToken_present _ _ _ _ _ H2 N2), Heq.
    by destruct (jwt_verify _ _ _).
  - intros req scheme token p Hh Hs Ht Hv.
    rewrite (verifyToken_present _ _ _ _ _ Hh); [|by destruct scheme].
    by rewrite (split_second _ _ Hs Ht), Hv.
  - intros req h Hh Hne Hl.
    rewrite (verifyToken_present _ _ _ _ _ Hh Hne), (split_lacks _ _ Hl).
    done.
Qed.
End Extraction.

(** [verifyToken_second_word] on [Ideal.libs]: the token under the scheme
    word [Bearer] and under the scheme word [Token], and the header
    [Bearer] alone. *)
Lemma verifyToken_second_word_witness :
  sum_map id user
    (verifyToken (L := Ideal.libs) Pool Sample.cfg (Sample.env 1700000001000)
       (Sample.bearer ("Bearer " +:+ Sample.token)))
  = sum_map id user
    (verifyToken (L := Ideal.libs) Pool Sample.cfg (Sample.env 1700000001000)
       (Sample.bearer ("Token " +:+ Sample.token))) ∧
  verifyToken (L := Ideal.libs) Pool Sample.cfg (Sample.env 1700000001000)
    (Sample.bearer ("Token " +:+ Sample.token))
  = inr (set_user (Sample.bearer ("Token " +:+ Sample.token)) (Sample.kurir 1)) ∧
  verifyToken (L := Ideal.libs) Pool Sample.cfg (Sample.env 1700000001000)
    (Sample.bearer "Bearer") = inl invalid_token.
Proof.
  destruct (verifyToken_second_word (L := Ideal.libs) Pool Sample.cfg
              (Sample.env 1700000001000)) as (Hsame & Hscheme & Hword).
  split; [|split].
  - apply (Hsame _ _ ("Bearer " +:+ Sample.token) ("Token " +:+ Sample.token));
      [reflexivity | discriminate | reflexivity | discriminate
      | vm_compute; reflexivity].
  - apply (Hscheme _ "Token" Sample.token);
      [reflexivity | reflexivity | vm_compute; reflexivity
      | vm_compute; reflexivity].
  - apply (Hword _ "Bearer"); [reflexivity | discriminate | reflexivity].
Defined.

(** ** Protected routes without a header *)

(** C8.  A request to a protected route ([POST /api/laporan],
    [GET /api/laporan]) without an [Authorization] header is answered 403
    and leaves the state as it was: no row is added to
    [laporan_pengiriman] and no file is written to the uploads
    directory. *)
Theorem protected_without_header `{L : Libs} v cfg e st ep req :
  ep = PostLaporan ∨ ep = GetLaporan →
  headers req !! "authorization" = None →
  app v cfg e st ep req = (missing_token, st) ∧
  status (app v cfg e st ep req).1 = 403 ∧
  tbl_laporan (db (app v cfg e st ep req).2) = tbl_laporan (db st) ∧
  uploads (app v cfg e st ep req).2 = uploads st.
Proof.
  intros Hep Hh.
  assert (app v cfg e st ep req = (missing_token, st)) as ->.
  { destruct Hep as [-> | ->]; unfold app;
      by rewrite verifyToken_absent by (by rewrite Hh). }
  done.
Qed.

(** A report with its photo and no header, on a state that holds a report
    and a file. *)
Lemma protected_without_header_witness :
  let st := (simpan_laporan Pool (Sample.env 1700000000000)
               (mkState (mkDb [] []) {[ "1700000000000.jpg" := "JFIF" ]})
               (Sample.handled 1 "RESI1" "-6.2" "106.8")).2 in
  let req := mkReq ∅ {[ "no_resi" := "RESI2"; "latitude" := "-6.2";
                        "longitude" := "106.8" ]}
                   (Some Sample.photo) None None in
  app (L := Ideal.libs) Pool Sample.cfg (Sample.env 1700000005000) st PostLaporan req
  = (missing_token, st).
Proof.
  intros st req.
  apply (protected_without_header (L := Ideal.libs) Pool Sample.cfg
           (Sample.env 1700000005000) st PostLaporan req);
    [by left | reflexivity].
Defined.

(** ** Validation of a report *)

Section Validation.
Context `{L : Libs} (v : Variant) (cfg : Config).

Lemma simpan_laporan_incomplete e st req :
  fields_missing req = true → simpan_laporan v e st req = (incomplete, st).
Proof. unfold simpan_laporan, fields_missing. by intros ->. Qed.

Lemma simpan_laporan_no_photo e st req :
  fields_missing req = false → file req = None →
  simpan_laporan v e st req = (no_photo, st).
Proof. unfold simpan_laporan, fields_missing. by intros -> ->. Qed.

(** multer leaves the database, the text fields and [req.user] alone, and
    sets [req.file] exactly when the request has a file part. *)
Lemma upload_single_frame e st req :
  db (upload_single v cfg e st req).1 = db st ∧
  body (upload_single v cfg e st req).2 = body req ∧
  user (upload_single v cfg e st req).2 = user req ∧
  (foto req = None → upload_single v cfg e st req = (st, req)).
Proof. unfold upload_single. by destruct (foto req). Qed.

(** C4.  The handler of [POST /api/laporan] answers 400 "Data tidak
    lengkap!" whenever [no_resi], [latitude] or [longitude] is missing or
    empty, and 400 "Foto wajib diupload!" whenever the three are present
    and there is no photo; in both cases it leaves the state as it was.
    On the route, for a request [verifyToken] lets through, the answers
    are the same and no row is added to [laporan_pengiriman]. *)
Theorem simpan_laporan_validation e st req :
  (fields_missing req = true →
     simpan_laporan v e st req = (incomplete, st)) ∧
  (fields_missing req = false → file req = None →
     simpan_laporan v e st req = (no_photo, st)) ∧
  (∀ req1, verifyToken v cfg e req = inr req1 →
     (fields_missing req = true →
        (app v cfg e st PostLaporan req).1 = incomplete ∧
        db (app v cfg e st PostLaporan req).2 = db st) ∧
     (fields_missing req = false → foto req = None → file req = None →
        app v cfg e st PostLaporan req = (no_photo, st))).
Proof.
  split; [apply simpan_laporan_incomplete|].
  split; [apply simpan_laporan_no_photo|].
  intros req1 Hv. destruct (verifyToken_inr _ _ _ _ _ Hv) as [p ->].
  unfold app. rewrite Hv. split.
  - intros Hm.
    destruct (upload_single_frame e st (set_user req p)) as (Hdb & Hb & _ & _).
    destruct (upload_single v cfg e st (set_user req p)) as [st1 req2].
    simpl in *. rewrite simpan_laporan_incomplete; [simpl; rewrite Hdb; by split|].
    unfold fields_missing. by rewrite Hb.
  - intros Hm Hf Hfile.
    destruct (upload_single_frame e st (set_user req p)) as (_ & _ & _ & Hn).
    rewrite (Hn Hf). by apply simpan_laporan_no_photo.
Qed.
End Validation.

(** [simpan_laporan_validation] at a report with an empty [no_resi], at
    one without a photo, and at both on the route under the token of
    courier 1. *)
Lemma simpan_laporan_validation_witness :
  simpan_laporan Callback (Sample.env 1700000001000) Sample.empty
    (Sample.handled 1 "" "-6.2" "106.8") = (incomplete, Sample.empty) ∧
  simpan_laporan Callback (Sample.env 1700000001000) Sample.empty
    (Sample.report "" "RESI1" "-6.2" "106.8" None) = (no_photo, Sample.empty) ∧
  ((app (L := Ideal.libs) Callback Sample.cfg (Sample.env 1700000001000)
      Sample.empty PostLaporan
      (Sample.report ("Bearer " +:+ Sample.token) "RESI1" "" "106.8"
         (Some Sample.photo))).1 = incomplete ∧
   db (app (L := Ideal.libs) Callback Sample.cfg (Sample.env 1700000001000)
      Sample.empty PostLaporan
      (Sample.report ("Bearer " +:+ Sample.token) "RESI1" "" "106.8"
         (Some Sample.photo))).2 = db Sample.empty) ∧
  app (L := Ideal.libs) Callback Sample.cfg (Sample.env 1700000001000)
      Sample.empty PostLaporan
      (Sample.report ("Bearer " +:+ Sample.token) "RESI1" "-6.2" "106.8" None)
  = (no_photo, Sample.empty).
Proof.
  split; [|split; [|split]].
  - apply (simpan_laporan_validation (L := Ideal.libs) Callback Sample.cfg
             (Sample.env 1700000001000) Sample.empty
             (Sample.handled 1 "" "-6.2" "106.8")).
    reflexivity.
  - apply (simpan_laporan_validation (L := Ideal.libs) Callback Sample.cfg
             (Sample.env 1700000001000) Sample.empty
             (Sample.report "" "RESI1" "-6.2" "106.8" None));
      reflexivity.
  - destruct (simpan_laporan_validation (L := Ideal.libs) Callback Sample.cfg
                (Sample.env 1700000001000) Sample.empty
                (Sample.report ("Bearer " +:+ Sample.token) "RESI1" "" "106.8"
                   (Some Sample.photo))) as (_ & _ & H).
    destruct (H (set_user (Sample.report ("Bearer " +:+ Sample.token) "RESI1" ""
                   "106.8" (Some Sample.photo)) (Sample.kurir 1))) as [Hm _];
      [vm_compute; reflexivity|].
    apply Hm. reflexivity.
  - destruct (simpan_laporan_validation (L := Ideal.libs) Callback Sample.cfg
                (Sample.env 1700000001000) Sample.empty
                (Sample.report ("Bearer " +:+ Sample.token) "RESI1" "-6.2" "106.8"
                   None)) as (_ & _ & H).
    destruct (H (set_user (Sample.report ("Bearer " +:+ Sample.token) "RESI1"
                   "-6.2" "106.8" None) (Sample.kurir 1))) as [_ Hp];
      [vm_compute; reflexivity|].
    apply Hp; reflexivity.
Defined.

(** ** Login *)

Section Login.
Context `{L : Libs} (v : Variant) (cfg : Config).

(** C1, amended.  [POST /api/login] answers 400 "Username dan Password
    wajib diisi!" when the user name or the password is missing or empty.
    Otherwise, when the lookup in [users] is not rejected by the database:
    401 "Username tidak ditemukan!" when no row has the user name; 401
    "Password salah!" when [bcrypt.compare] rejects the password against
    the hash of the first such row; and else 200 with the token that signs,
    under [SECRET_KEY], the payload made of that row's id and username,
    issued at the clock's second and expiring 3600 seconds later.  When the
    lookup is rejected the answer is 500 "Server error".  The state is left
    as it was in every case. *)
Theorem login_cases e st req :
  let password := default "" (body req !! "password") in
  (credentials_missing req = true →
     login v cfg e st req
     = (mkRes 400 (JsonError "Username dan Password wajib diisi!"), st)) ∧
  (credentials_missing req = false →
     (∀ err, db_fault e = Some err →
        login v cfg e st req = (mkRes 500 (JsonError "Server error"), st)) ∧
     (db_fault e = None →
        (matching st req = [] →
           login v cfg e st req
           = (mkRes 401 (JsonError "Username tidak ditemukan!"), st)) ∧
        (∀ user rest, matching st req = user :: rest →
           user ∈ tbl_users (db st) ∧
           Some (users.username user) = body req !! "username" ∧
           (bcrypt_compare password (users.password_hash user) = false →
              login v cfg e st req
              = (mkRes 401 (JsonError "Password salah!"), st)) ∧
           (bcrypt_compare password (users.password_hash user) = true →
              let p := authData.mk (users.id user) (users.username user)
                         (date_now e `div` 1000)
                         (date_now e `div` 1000 + 3600) in
              login v cfg e st req
              = (mkRes 200 (JsonLogin "Login sukses"
                   (jwt_encode p (jwt_hmac (SECRET_KEY v cfg) p))), st) ∧
              authData.exp p = authData.iat p + 3600)))).
Proof.
  intros password. subst password. unfold login, credentials_missing, matching.
  split; [by intros ->|]. intros Hc. rewrite Hc. split.
  - intros err He. unfold select_user. by rewrite He.
  - intros He. unfold select_user. rewrite He. split; [by intros ->|].
    intros user rest Hm. rewrite Hm.
    assert (user ∈ filter (λ u, users.username u = default "" (body req !! "username"))
                     (tbl_users (db st))) as [Hu Hin]%list_elem_of_filter
      by (rewrite Hm; apply list_elem_of_here).
    split; [done|]. split.
    { apply orb_false_iff in Hc as [(s & Hs & _)%falsy_false _].
      rewrite Hs in Hu |- *. simpl in Hu. by rewrite Hu. }
    split; [by intros ->|]. by intros ->.
Qed.
End Login.

(** C1, counterexample.  [alice] is registered and sends her password
    while the database connection is lost: the claim promises 200, the
    handler answers 500. *)
Lemma login_as_stated_fails :
  ¬ login_as_stated (L := Ideal.libs) Pool Sample.cfg
      (Sample.env_down 1700000000000) Sample.registered
      (Sample.credentials "alice" "secret123").
Proof. vm_compute. discriminate. Qed.

(** [login_cases] on [Ideal.libs]: an empty password, a lost connection,
    an unknown user name, a wrong password, and the right one. *)
Lemma login_cases_witness :
  login (L := Ideal.libs) Pool Sample.cfg (Sample.env 1700000000000)
    Sample.registered (Sample.credentials "alice" "")
  = (mkRes 400 (JsonError "Username dan Password wajib diisi!"), Sample.registered) ∧
  login (L := Ideal.libs) Pool Sample.cfg (Sample.env_down 1700000000000)
    Sample.registered (Sample.credentials "alice" "secret123")
  = (mkRes 500 (JsonError "Server error"), Sample.registered) ∧
  login (L := Ideal.libs) Pool Sample.cfg (Sample.env 1700000000000)
    Sample.registered (Sample.credentials "bob" "secret123")
  = (mkRes 401 (JsonError "Username tidak ditemukan!"), Sample.registered) ∧
  login (L := Ideal.libs) Pool Sample.cfg (Sample.env 1700000000000)
    Sample.registered (Sample.credentials "alice" "secret124")
  = (mkRes 401 (JsonError "Password salah!"), Sample.registered) ∧
  login (L := Ideal.libs) Pool Sample.cfg (Sample.env 1700000000000)
    Sample.registered (Sample.credentials "alice" "secret123")
  = (mkRes 200 (JsonLogin "Login sukses" Sample.token), Sample.registered).
Proof.
  split; [|split; [|split; [|split]]].
  - apply (login_cases (L := Ideal.libs) Pool Sample.cfg (Sample.env 1700000000000)
             Sample.registered (Sample.credentials "alice" "")).
    reflexivity.
  - destruct (login_cases (L := Ideal.libs) Pool Sample.cfg
                (Sample.env_down 1700000000000) Sample.registered
                (Sample.credentials "alice" "secret123")) as [_ H].
    destruct H as [Hdown _]; [reflexivity|].
    apply (Hdown Sample.lost). reflexivity.
  - destruct (login_cases (L := Ideal.libs) Pool Sample.cfg
                (Sample.env 1700000000000) Sample.registered
                (Sample.credentials "bob" "secret123")) as [_ H].
    destruct H as [_ Hup]; [reflexivity|].
    destruct Hup as [Hnone _]; [reflexivity|].
    apply Hnone. vm_compute. reflexivity.
  - destruct (login_cases (L := Ideal.libs) Pool Sample.cfg
                (Sample.env 1700000000000) Sample.registered
                (Sample.credentials "alice" "secret124")) as [_ H].
    destruct H as [_ Hup]; [reflexivity|].
    destruct Hup as [_ Hrow]; [reflexivity|].
    destruct (Hrow (users.mk 1 "alice"
                      (Ideal.hash "secret123" 10 "N9qo8uLOickgx2ZMRZoMye") 1700000000) [])
      as (_ & _ & Hbad & _); [vm_compute; reflexivity|].
    apply Hbad. vm_compute. reflexivity.
  - destruct (login_cases (L := Ideal.libs) Pool Sample.cfg
                (Sample.env 1700000000000) Sample.registered
                (Sample.credentials "alice" "secret123")) as [_ H].
    destruct H as [_ Hup]; [reflexivity|].
    destruct Hup as [_ Hrow]; [reflexivity|].
    destruct (Hrow (users.mk 1 "alice"
                      (Ideal.hash "secret123" 10 "N9qo8uLOickgx2ZMRZoMye") 1700000000) [])
      as (_ & _ & _ & Hgood); [vm_compute; reflexivity|].
    apply Hgood. vm_compute. reflexivity.
Defined.

(** ** Registration *)

Section Register.
Context `{L : Libs}.

Lemma existsb_matching st req :
  existsb (λ u, bool_decide (users.username u = default "" (body req !! "username")))
          (tbl_users (db st)) = false ↔ matching st req = [].
Proof.
  unfold matching. induction (tbl_users (db st)) as [|u us IH]; simpl; [done|].
  rewrite filter_cons. case_decide as Hu.
  - rewrite bool_decide_eq_true_2 by done. simpl. split; done.
  - rewrite bool_decide_eq_false_2 by done. simpl. done.
Qed.

Lemma register_missing e st req :
  credentials_missing req = true → register e st req = (bad_credentials, st).
Proof. unfold register, credentials_missing. by intros ->. Qed.

Lemma register_taken e st req :
  credentials_missing req = false → matching st req ≠ [] →
  (register e st req).2 = st ∧
  (db_fault e = None → (register e st req).1 = duplicate_username) ∧
  (∀ err, db_fault e = Some err → err_code err ≠ "ER_DUP_ENTRY" →
     (register e st req).1 = mkRes 500 (JsonError "Gagal registrasi")).
Proof.
  intros Hc Hm. unfold register, credentials_missing in *. rewrite Hc.
  unfold insert_user.
  assert (existsb (λ u, bool_decide (users.username u
            = default "" (body req !! "username"))) (tbl_users (db st)) = true) as Hex.
  { apply not_false_iff_true. by rewrite existsb_matching. }
  rewrite Hex. destruct (db_fault e) as [err|]; simpl.
  - case_bool_decide as Hcode; simpl.
    + split; [done|]. split; [done|]. by intros ? [= <-] ?.
    + split; [done|]. split; [done|]. by intros ? [= <-] ?.
  - split; [done|]. split; [done|]. by intros.
Qed.

Lemma register_new e st req :
  credentials_missing req = false → db_fault e = None → matching st req = [] →
  register e st req
  = (created,
     mkState (mkDb (tbl_users (db st) ++ [new_user e st req]) (tbl_laporan (db st)))
             (uploads st)).
Proof.
  intros Hc He Hm. unfold register, credentials_missing in *. rewrite Hc.
  unfold insert_user. rewrite He.
  apply existsb_matching in Hm. by rewrite Hm.
Qed.

(** Once the row of a request is appended, the user name selects it alone. *)
Lemma matching_after_insert e st req req2 l up :
  matching st req = [] →
  body req2 !! "username" = body req !! "username" →
  matching (mkState (mkDb (tbl_users (db st) ++ [new_user e st req]) l) up) req2
  = [new_user e st req].
Proof.
  intros Hm Hu. unfold matching in *. cbn [db tbl_users].
  rewrite filter_app, Hu, Hm, filter_cons.
  rewrite decide_True by done. done.
Qed.

(** A 201 is the answer to present credentials, no fault and a free name. *)
Lemma register_created_inv e st req :
  status (register e st req).1 = 201 →
  credentials_missing req = false ∧ db_fault e = None ∧ matching st req = [].
Proof.
  unfold register, credentials_missing.
  destruct (_ || _); [done|]. unfold insert_user.
  destruct (db_fault e) as [err|].
  { case_bool_decide; done. }
  rewrite <- existsb_matching. destruct (existsb _ _); [done|]. done.
Qed.

(** C3, amended.  On a store that holds the user name, registering it
    again with a password leaves the state as it was; the answer is 400
    "Username sudah digunakan!" unless the database rejects the insert for
    another reason, and 500 "Gagal registrasi" then.  So when a
    registration has succeeded, a second one with the same user name
    changes nothing and the store holds exactly one row for the name. *)
Theorem register_duplicate e st req :
  (credentials_missing req = false → matching st req ≠ [] →
     (register e st req).2 = st ∧
     (db_fault e = None → (register e st req).1 = duplicate_username) ∧
     (∀ err, db_fault e = Some err → err_code err ≠ "ER_DUP_ENTRY" →
        (register e st req).1 = mkRes 500 (JsonError "Gagal registrasi"))) ∧
  (∀ e2 req2,
     status (register e st req).1 = 201 →
     body req2 !! "username" = body req !! "username" →
     let st1 := (register e st req).2 in
     (register e2 st1 req2).2 = st1 ∧
     length (matching st1 req2) = 1%nat ∧
     (credentials_missing req2 = false → db_fault e2 = None →
        (register e2 st1 req2).1 = duplicate_username)).
Proof.
  split; [apply register_taken|].
  intros e2 req2 (Hc & He & Hm)%register_created_inv Hu st1. subst st1.
  rewrite (register_new _ _ _ Hc He Hm). simpl.
  set (st1 := mkState _ _).
  assert (matching st1 req2 = [new_user e st req]) as Hone
    by by apply matching_after_insert.
  assert (matching st1 req2 ≠ []) as Hne by by rewrite Hone.
  split; [|split].
  - destruct (credentials_missing req2) eqn:Hc2.
    + by rewrite register_missing.
    + by destruct (register_taken e2 st1 req2 Hc2 Hne) as [-> _].
  - by rewrite Hone.
  - intros Hc2 He2.
    by destruct (register_taken e2 st1 req2 Hc2 Hne) as (_ & -> & _).
Qed.

(** C7, amended.  [POST /api/register] answers 400 and persists nothing
    when the user name or the password is missing or empty.  With both
    present, a user name the store does not hold yet and an insert the
    database does not reject, it answers 201 and appends exactly one row
    to [users], whose [password_hash] is [bcrypt.hash(password, 10)] under
    the salt drawn; nothing else of the state changes.  The password
    reaches the state through that hash only: two requests for the same
    user name whose passwords hash alike leave the same state. *)
Theorem register_fresh e st req :
  (credentials_missing req = true →
     register e st req = (bad_credentials, st)) ∧
  (credentials_missing req = false → db_fault e = None → matching st req = [] →
     register e st req
     = (created,
        mkState (mkDb (tbl_users (db st) ++ [new_user e st req]) (tbl_laporan (db st)))
                (uploads st)) ∧
     users.password_hash (new_user e st req)
     = bcrypt_hash (default "" (body req !! "password")) 10 (gen_salt e)) ∧
  (∀ req2,
     credentials_missing req = false → credentials_missing req2 = false →
     body req2 !! "username" = body req !! "username" →
     bcrypt_hash (default "" (body req2 !! "password")) 10 (gen_salt e)
     = bcrypt_hash (default "" (body req !! "password")) 10 (gen_salt e) →
     (register e st req2).2 = (register e st req).2).
Proof.
  split; [apply register_missing|]. split.
  - intros Hc He Hm. by rewrite (register_new _ _ _ Hc He Hm).
  - intros req2 Hc Hc2 Hu Hh. unfold register, credentials_missing in *.
    by rewrite Hc, Hc2, Hu, Hh.
Qed.
End Register.

(** C3, counterexample.  [alice] is registered and registers again while
    the database connection is lost: the answer is 500, not 400. *)
Lemma register_again_as_stated_fails :
  ¬ register_again_as_stated (L := Ideal.libs) (Sample.env_down 1700000060000)
      Sample.registered (Sample.credentials "alice" "secret123").
Proof.
  intros H. destruct H as [H _]; [vm_compute; discriminate|].
  vm_compute in H. discriminate.
Qed.

(** [register_duplicate] on [Ideal.libs]: [alice] again on the store that
    holds her, with the database up and with the connection lost, and the
    two registrations in a row from the empty store. *)
Lemma register_duplicate_witness :
  register (L := Ideal.libs) (Sample.env 1700000060000) Sample.registered
    (Sample.credentials "alice" "hunter2")
  = (duplicate_username, Sample.registered) ∧
  register (L := Ideal.libs) (Sample.env_down 1700000060000) Sample.registered
    (Sample.credentials "alice" "hunter2")
  = (mkRes 500 (JsonError "Gagal registrasi"), Sample.registered) ∧
  length (matching
            (register (L := Ideal.libs) (Sample.env 1700000060000) Sample.registered
               (Sample.credentials "alice" "hunter2")).2
            (Sample.credentials "alice" "hunter2")) = 1%nat.
Proof.
  destruct (register_duplicate (L := Ideal.libs) (Sample.env 1700000060000)
              Sample.registered (Sample.credentials "alice" "hunter2"))
    as [Hup _].
  destruct Hup as (Hst & Hres & _); [reflexivity | vm_compute; discriminate|].
  destruct (register_duplicate (L := Ideal.libs) (Sample.env_down 1700000060000)
              Sample.registered (Sample.credentials "alice" "hunter2"))
    as [Hdown _].
  destruct Hdown as (Hst' & _ & Hres'); [reflexivity | vm_compute; discriminate|].
  destruct (register_duplicate (L := Ideal.libs) (Sample.env 1700000000000)
              Sample.empty (Sample.credentials "alice" "secret123"))
    as [_ Htwice].
  destruct (Htwice (Sample.env 1700000060000) (Sample.credentials "alice" "hunter2"))
    as (Hsame & Hone & _); [reflexivity | reflexivity|].
  split; [|split].
  - rewrite (surjective_pairing (register _ _ _)), Hst, Hres; [done|reflexivity].
  - rewrite (surjective_pairing (register _ _ _)), Hst'.
    rewrite (Hres' Sample.lost); [done | reflexivity | vm_compute; discriminate].
  - exact Hone.
Defined.

(** C7, counterexample.  Both fields are present but [alice] is taken:
    the answer is 400 and no row is added. *)
Lemma register_as_stated_fails :
  ¬ register_as_stated (L := Ideal.libs) (Sample.env 1700000060000)
      Sample.registered (Sample.credentials "alice" "hunter2").
Proof. vm_compute. intros [H _]. discriminate. Qed.

(** [register_fresh] on [Ideal.libs]: an empty password; [alice] on the
    empty store; and the same registration with one more member in the
    body. *)
Lemma register_fresh_witness :
  register (L := Ideal.libs) (Sample.env 1700000000000) Sample.empty
    (Sample.credentials "alice" "") = (bad_credentials, Sample.empty) ∧
  register (L := Ideal.libs) (Sample.env 1700000000000) Sample.empty
    (Sample.credentials "alice" "secret123")
  = (created,
     mkState (mkDb [users.mk 1 "alice"
                      (Ideal.hash "secret123" 10 "N9qo8uLOickgx2ZMRZoMye")
                      1700000000] []) ∅) ∧
  (register (L := Ideal.libs) (Sample.env 1700000000000) Sample.empty
     (mkReq ∅ {[ "username" := "alice"; "password" := "secret123";
                 "role" := "admin" ]} None None None)).2
  = (register (L := Ideal.libs) (Sample.env 1700000000000) Sample.empty
       (Sample.credentials "alice" "secret123")).2.
Proof.
  destruct (register_fresh (L := Ideal.libs) (Sample.env 1700000000000)
              Sample.empty (Sample.credentials "alice" "")) as [Hbad _].
  destruct (register_fresh (L := Ideal.libs) (Sample.env 1700000000000)
              Sample.empty (Sample.credentials "alice" "secret123"))
    as (_ & Hnew & Hsame).
  destruct Hnew as [Hnew _]; [reflexivity | reflexivity | reflexivity|].
  split; [|split].
  - apply Hbad. reflexivity.
  - rewrite Hnew. vm_compute. reflexivity.
  - apply Hsame; [reflexivity | reflexivity | reflexivity | reflexivity].
Defined.

(** ** History of a courier *)

#[export] Instance created_desc_trans : Transitive created_desc.
Proof. unfold created_desc. intros a b c. lia. Qed.

#[export] Instance created_desc_total : Total created_desc.
Proof. unfold created_desc. intros a b. lia. Qed.

Lemma strictly_desc_of_distinct rows :
  StronglySorted created_desc rows →
  NoDup (laporan_pengiriman.created_at <$> rows) →
  StronglySorted strictly_desc rows.
Proof.
  induction 1 as [|r rows Hs IH Hall]; intros Hnd; [constructor|].
  rewrite fmap_cons in Hnd. apply NoDup_cons in Hnd as [Hr Hnd].
  constructor; [by apply IH|].
  rewrite Forall_forall in Hall |- *. intros r' Hin.
  specialize (Hall r' Hin). unfold created_desc, strictly_desc in *.
  assert (laporan_pengiriman.created_at r' ≠ laporan_pengiriman.created_at r).
  { intros Heq. apply Hr. rewrite <- Heq. by apply list_elem_of_fmap_2. }
  lia.
Qed.

(** C5, amended.  For the courier [verifyToken] has put in [req.user],
    [GET /api/laporan] answers, when the database does not reject the
    query, 200 with the rows of [laporan_pengiriman] whose [id_kurir] is
    the courier's id, all of them and no others, ordered by [created_at]
    descending: no row is older than a row after it.  Rows created in the
    same second stand in either order; when the courier's rows have
    pairwise distinct [created_at] the order is strictly descending.  A
    courier without reports gets the empty array.  When the database
    rejects the query the answer is 500 "Gagal ambil data".  The state is
    left as it was. *)
Theorem history_laporan_rows v e st req u :
  user req = Some u →
  (∀ err, db_fault e = Some err →
     history_laporan v e st req = (mkRes 500 (JsonError "Gagal ambil data"), st)) ∧
  (db_fault e = None →
     ∃ rows,
       history_laporan v e st req = (mkRes 200 (JsonRows rows), st) ∧
       rows ≡ₚ reports_of st (authData.id u) ∧
       (∀ r, r ∈ rows ↔
             r ∈ tbl_laporan (db st) ∧ laporan_pengiriman.id_kurir r = authData.id u) ∧
       StronglySorted created_desc rows ∧
       (NoDup (laporan_pengiriman.created_at <$> reports_of st (authData.id u)) →
          StronglySorted strictly_desc rows) ∧
       (reports_of st (authData.id u) = [] → rows = [])).
Proof.
  intros Hu. unfold history_laporan, select_laporan. rewrite Hu. split.
  - by intros err ->.
  - intros ->. fold (reports_of st (authData.id u)).
    set (l := reports_of st (authData.id u)).
    exists (merge_sort created_desc l).
    pose proof (merge_sort_Permutation created_desc l) as Hp.
    pose proof (StronglySorted_merge_sort created_desc l) as Hs.
    split; [done|]. split; [done|]. split; [|split; [done|split]].
    + intros r. rewrite Hp. unfold l, reports_of.
      rewrite list_elem_of_filter. tauto.
    + intros Hnd. apply strictly_desc_of_distinct; [done|]. by rewrite Hp.
    + intros Hnil. apply Permutation_nil_r. by rewrite <- Hnil.
Qed.

(** C5, counterexample.  Courier 1 has two reports created in the same
    second: the array has both, and neither is more recent than the
    other. *)
Lemma history_as_stated_fails :
  ¬ history_as_stated Pool (Sample.env 1700000005000) Sample.history
      (Sample.identified 1).
Proof.
  intros H. destruct (H (Sample.kurir 1) eq_refl) as (rows & Hres & _ & Hs).
  vm_compute in Hres. injection Hres as Hrows. subst rows.
  apply StronglySorted_cons in Hs as [Hall _].
  apply Forall_cons in Hall as [Hlt _].
  unfold strictly_desc in Hlt. simpl in Hlt. lia.
Qed.

(** [history_laporan_rows] on the three reports of [Sample.history]: the
    two of courier 1, the one of courier 2, none for courier 3, and the
    lost connection. *)
Lemma history_laporan_rows_witness :
  (∃ rows,
     history_laporan Pool (Sample.env 1700000005000) Sample.history
       (Sample.identified 1) = (mkRes 200 (JsonRows rows), Sample.history) ∧
     length rows = 2%nat ∧ StronglySorted created_desc rows) ∧
  (∃ rows,
     history_laporan Pool (Sample.env 1700000005000) Sample.history
       (Sample.identified 2) = (mkRes 200 (JsonRows rows), Sample.history) ∧
     StronglySorted strictly_desc rows) ∧
  history_laporan Pool (Sample.env 1700000005000) Sample.history
    (Sample.identified 3) = (mkRes 200 (JsonRows []), Sample.history) ∧
  history_laporan Pool (Sample.env_down 1700000005000) Sample.history
    (Sample.identified 1)
  = (mkRes 500 (JsonError "Gagal ambil data"), Sample.history).
Proof.
  split; [|split; [|split]].
  - destruct (history_laporan_rows Pool (Sample.env 1700000005000) Sample.history
                (Sample.identified 1) (Sample.kurir 1) eq_refl) as [_ H].
    destruct (H eq_refl) as (rows & Hres & Hp & _ & Hs & _).
    exists rows. split; [done|]. split; [by rewrite Hp|done].
  - destruct (history_laporan_rows Pool (Sample.env 1700000005000) Sample.history
                (Sample.identified 2) (Sample.kurir 2) eq_refl) as [_ H].
    destruct (H eq_refl) as (rows & Hres & _ & _ & _ & Hs & _).
    exists rows. split; [done|]. apply Hs. vm_compute.
    apply NoDup_singleton.
  - destruct (history_laporan_rows Pool (Sample.env 1700000005000) Sample.history
                (Sample.identified 3) (Sample.kurir 3) eq_refl) as [_ H].
    destruct (H eq_refl) as (rows & Hres & _ & _ & _ & _ & Hnil).
    rewrite Hres, Hnil; [done|]. vm_compute. reflexivity.
  - destruct (history_laporan_rows Pool (Sample.env_down 1700000005000)
                Sample.history (Sample.identified 1) (Sample.kurir 1) eq_refl)
      as [H _].
    apply (H Sample.lost). reflexivity.
Defined.

(** ** Submission of a report, and the end-to-end flow *)

Lemma simpan_laporan_saved_inv v e st req :
  status (simpan_laporan v e st req).1 = 200 →
  simpan_laporan v e st req
  = (saved, mkState (mkDb (tbl_users (db st))
                          (tbl_laporan (db st) ++ [new_laporan v e st req]))
                    (uploads st)).
Proof.
  unfold simpan_laporan, new_laporan, insert_laporan.
  destruct (_ || _); [done|].
  destruct (file req) as [f|]; [|done].
  destruct (user req) as [u|]; [|by destruct v].
  destruct (db_fault e); [done|]. simpl. by destruct v.
Qed.

Lemma login_success `{L : Libs} v cfg e st req user rest :
  credentials_missing req = false → db_fault e = None →
  matching st req = user :: rest →
  bcrypt_compare (default "" (body req !! "password")) (users.password_hash user) = true →
  login v cfg e st req
  = (mkRes 200 (JsonLogin "Login sukses"
       (jwt_sign (users.id user) (users.username user) (SECRET_KEY v cfg) (date_now e))),
     st).
Proof.
  intros Hc He Hm Hb. unfold login, credentials_missing, matching in *.
  rewrite Hc. unfold select_user. by rewrite He, Hm, Hb.
Qed.

(** A token of [jwt.sign] is accepted under the same secret until its
    hour is over. *)
Lemma jwt_verify_sign `{L : Libs} `{!LibLaws L} id username secret t0 t :
  t `div` 1000 < t0 `div` 1000 + 3600 →
  jwt_verify (Some (jwt_sign id username secret t0)) secret t
  = inr (authData.mk id username (t0 `div` 1000) (t0 `div` 1000 + 3600)).
Proof.
  intros Ht. unfold jwt_sign. apply jwt_verify_ok.
  - apply jwt_encode_nonempty.
  - apply jwt_decode_encode.
  - done.
Qed.

Lemma verifyToken_bearer `{L : Libs} `{!LibLaws L} v cfg e req id username t0 :
  headers req !! "authorization"
  = Some ("Bearer " +:+ jwt_sign id username (SECRET_KEY v cfg) t0) →
  date_now e `div` 1000 < t0 `div` 1000 + 3600 →
  verifyToken v cfg e req
  = inr (set_user req
           (authData.mk id username (t0 `div` 1000) (t0 `div` 1000 + 3600))).
Proof.
  intros Hh Ht. rewrite (verifyToken_present _ _ _ _ _ Hh) by done.
  change ("Bearer " +:+ ?t) with ("Bearer" +:+ " " +:+ t).
  rewrite split_second; [|done|apply jwt_encode_no_space].
  by rewrite jwt_verify_sign.
Qed.

Lemma simpan_laporan_new v e st req f u :
  fields_missing req = false → file req = Some f → user req = Some u →
  db_fault e = None →
  simpan_laporan v e st req
  = (saved, mkState (mkDb (tbl_users (db st))
                          (tbl_laporan (db st) ++ [new_laporan v e st req]))
                    (uploads st)).
Proof.
  intros Hf Hfile Hu He. unfold simpan_laporan, fields_missing in *.
  rewrite Hf, Hfile, Hu. unfold insert_laporan, new_laporan.
  rewrite He, Hfile, Hu. simpl. by destruct v.
Qed.

Lemma history_laporan_single v e st u r l up req :
  user req = Some u → db_fault e = None →
  reports_of st (authData.id u) = [] →
  laporan_pengiriman.id_kurir r = authData.id u →
  history_laporan v e (mkState (mkDb l (tbl_laporan (db st) ++ [r])) up) req
  = (mkRes 200 (JsonRows [r]), mkState (mkDb l (tbl_laporan (db st) ++ [r])) up).
Proof.
  intros Hu He Hn Hr. unfold history_laporan, select_laporan, reports_of in *.
  rewrite Hu, He. cbn [db tbl_laporan].
  rewrite filter_app, Hn, filter_cons, decide_True by done.
  done.
Qed.

(** C2, amended.  A submission that [POST /api/laporan] answers with 200 adds
    exactly one row to [laporan_pengiriman], and the [status] of that row
    is the fixed string ["Terkirim"].  End to end, on a store that does
    not hold [alice] and has no report under the id she will get, with no
    query rejected and the token used within its hour: registering
    [alice] with [secret123] answers 201, logging in answers 200 with a
    token, sending one report [RESI1] with coordinates and a photo under
    that token answers 200, and asking for the history under that token
    answers 200 with an array of exactly that one report, whose [status]
    is ["Terkirim"]. *)
Theorem delivered_end_to_end `{L : Libs} `{!LibLaws L} v cfg e st req
    e1 e2 e3 e4 st0 latitude longitude part :
  (status (simpan_laporan v e st req).1 = 200 →
     simpan_laporan v e st req
     = (saved, mkState (mkDb (tbl_users (db st))
                             (tbl_laporan (db st) ++ [new_laporan v e st req]))
                       (uploads st)) ∧
     laporan_pengiriman.status (new_laporan v e st req) = "Terkirim") ∧
  (db_fault e1 = None → db_fault e2 = None →
   db_fault e3 = None → db_fault e4 = None →
   matching st0 (Sample.credentials "alice" "secret123") = [] →
   reports_of st0 (auto_increment (users.id <$> tbl_users (db st0))) = [] →
   latitude ≠ "" → longitude ≠ "" →
   date_now e3 `div` 1000 < date_now e2 `div` 1000 + 3600 →
   date_now e4 `div` 1000 < date_now e2 `div` 1000 + 3600 →
   ∃ token r,
     end_to_end v cfg e1 e2 e3 e4 st0 latitude longitude part
     = [created; mkRes 200 (JsonLogin "Login sukses" token); saved;
        mkRes 200 (JsonRows [r])] ∧
     laporan_pengiriman.status r = "Terkirim" ∧
     laporan_pengiriman.no_resi r = "RESI1" ∧
     laporan_pengiriman.id_kurir r = auto_increment (users.id <$> tbl_users (db st0)) ∧
     laporan_pengiriman.latitude r = latitude ∧
     laporan_pengiriman.longitude r = longitude).
Proof.
  split.
  { intros Hs. by rewrite (simpan_laporan_saved_inv _ _ _ _ Hs). }
  intros He1 He2 He3 He4 Hfree Hnone Hla Hlo Ht3 Ht4.
  set (alice := Sample.credentials "alice" "secret123") in *.
  set (uid := auto_increment (users.id <$> tbl_users (db st0))) in *.
  unfold end_to_end. fold alice.
  unfold app at 1.
  rewrite (register_new e1 st0 alice eq_refl He1 Hfree).
  set (st1 := mkState _ _).
  unfold app at 1.
  assert (matching st1 alice = [new_user e1 st0 alice]) as Hm
    by by apply matching_after_insert.
  rewrite (login_success v cfg e2 st1 alice _ _ eq_refl He2 Hm)
    by apply bcrypt_compare_hash.
  cbn [payload users.id users.username new_user].
  fold uid.
  set (token := jwt_sign uid _ _ _).
  set (p := authData.mk uid (default "" (body alice !! "username"))
              (date_now e2 `div` 1000) (date_now e2 `div` 1000 + 3600)).
  set (req3 := Sample.report ("Bearer " +:+ token) "RESI1" latitude longitude
                 (Some part)).
  unfold app at 1.
  rewrite (verifyToken_bearer v cfg e3 req3 uid _ (date_now e2))
    by (done || apply lookup_singleton_eq).
  fold p. unfold upload_single. cbn [foto req3 Sample.report set_user].
  set (st2 := mkState (db st1) _). set (req4 := set_file _ _).
  assert (fields_missing req4 = false) as Hf.
  { unfold fields_missing, req4. cbn [body set_file].
    rewrite !orb_false_iff. split; [split|]; apply falsy_false.
    - by exists "RESI1".
    - by exists latitude.
    - by exists longitude. }
  rewrite (simpan_laporan_new v e3 st2 req4 _ p Hf eq_refl eq_refl He3).
  set (r := new_laporan v e3 st2 req4).
  unfold app at 1.
  rewrite (verifyToken_bearer v cfg e4 _ uid _ (date_now e2))
    by (done || apply lookup_singleton_eq).
  fold p.
  rewrite (history_laporan_single v e4 st0 p r); try done.
  exists token, r. done.
Qed.

(** C2, counterexample.  The row of a successful submission has the
    [status] ["Terkirim"], which is not the string ["delivered"]. *)
Lemma submission_as_stated_fails :
  ¬ submission_as_stated Pool (Sample.env 1700000000000) Sample.empty
      (Sample.handled 1 "RESI1" "-6.2" "106.8").
Proof.
  intros H. destruct (H eq_refl) as (r & Hr & Hs).
  vm_compute in Hr. injection Hr as Hr. subst r.
  vm_compute in Hs. discriminate.
Qed.

(** [delivered_end_to_end] on [Ideal.libs] and the empty store: the report
    handled for courier 1, and the flow with the login five seconds, the
    report a minute and the history two minutes after the registration. *)
Lemma delivered_end_to_end_witness :
  laporan_pengiriman.status
    (new_laporan Pool (Sample.env 1700000000000) Sample.empty
       (Sample.handled 1 "RESI1" "-6.2" "106.8")) = "Terkirim" ∧
  ∃ token r,
    end_to_end (L := Ideal.libs) Pool Sample.cfg
      (Sample.env 1700000000000) (Sample.env 1700000005000)
      (Sample.env 1700000060000) (Sample.env 1700000120000)
      Sample.empty "-6.2" "106.8" Sample.photo
    = [created; mkRes 200 (JsonLogin "Login sukses" token); saved;
       mkRes 200 (JsonRows [r])] ∧
    laporan_pengiriman.status r = "Terkirim" ∧
    laporan_pengiriman.no_resi r = "RESI1" ∧
    laporan_pengiriman.id_kurir r = 1.
Proof.
  destruct (delivered_end_to_end (L := Ideal.libs) Pool Sample.cfg
              (Sample.env 1700000000000) Sample.empty
              (Sample.handled 1 "RESI1" "-6.2" "106.8")
              (Sample.env 1700000000000) (Sample.env 1700000005000)
              (Sample.env 1700000060000) (Sample.env 1700000120000)
              Sample.empty "-6.2" "106.8" Sample.photo) as [Hrow Hflow].
  split.
  - apply Hrow. reflexivity.
  - destruct Hflow as (token & r & Hres & Hs & Hn & Hk & _);
      [reflexivity | reflexivity | reflexivity | reflexivity | reflexivity
      | reflexivity | discriminate | discriminate | reflexivity | reflexivity |].
    exists token, r. split; [exact Hres|]. split; [exact Hs|]. split; [exact Hn|].
    exact Hk.
Defined.

(** ** What a response tells of a database error *)

(** On every route but [/init-db] the response to a rejected query is the
    same whatever the error says: of the error object only the test
    [code === 'ER_DUP_ENTRY'] of the registration is visible. *)
Lemma routes_hide_error `{L : Libs} v cfg e st ep req err1 err2 :
  ep ≠ GetInitDb →
  (err_code err1 = "ER_DUP_ENTRY" ↔ err_code err2 = "ER_DUP_ENTRY") →
  app v cfg (with_fault e err1) st ep req = app v cfg (with_fault e err2) st ep req.
Proof.
  intros Hep Hcode. destruct ep; [| | | |by destruct v|done].
  - unfold app, register, insert_user. simpl. destruct (_ || _); [done|].
    by rewrite (bool_decide_ext _ _ Hcode).
  - unfold app, login, select_user. simpl. by destruct (_ || _).
  - unfold app, verifyToken. simpl. destruct (falsy _); [done|].
    destruct (jwt_verify _ _ _) as [?|p]; [done|].
    unfold upload_single. simpl. destruct (foto req) as [part|].
    + unfold simpan_laporan, insert_laporan. simpl. by destruct (_ || _).
    + unfold simpan_laporan, insert_laporan. simpl.
      destruct (_ || _); [done|]. by destruct (file req).
  - unfold app, verifyToken. simpl. destruct (falsy _); [done|].
    by destruct (jwt_verify _ _ _) as [?|p].
Qed.

(** C9.  On [GET /init-db] of the second revision a rejected query is
    answered 500 with the message of the database error as the body: the
    response carries the internal error detail, where every other route
    answers a fixed message ([routes_hide_error]). *)
Theorem init_db_sends_error_message `{L : Libs} cfg e st req err :
  app Pool cfg (with_fault e err) st GetInitDb req
  = (mkRes 500 (Text (err_message err)), st).
Proof. reflexivity. Qed.

(** * Further properties of the routes *)

(** ** What a request does to the state *)

Lemma auto_increment_fresh ids i : i ∈ ids → i < auto_increment ids.
Proof.
  unfold auto_increment. induction ids as [|j ids IH]; simpl.
  - by intros ?%elem_of_nil.
  - intros [->|Hin]%elem_of_cons; [lia|]. specialize (IH Hin). lia.
Qed.

Lemma auto_increment_pos ids : 0 < auto_increment ids.
Proof.
  unfold auto_increment. induction ids as [|j ids IH]; simpl; lia.
Qed.

(** The three shapes of the state after a request: as it was; one row
    more in [users], by a registration; or the uploads directory of a
    report, with the tables as they were or one row more in
    [laporan_pengiriman]. *)
Lemma app_effect `{L : Libs} v cfg e st ep req :
  (app v cfg e st ep req).2 = st ∨
  (ep = PostRegister ∧ matching st req = [] ∧
   (app v cfg e st ep req).2
   = mkState (mkDb (tbl_users (db st) ++ [new_user e st req]) (tbl_laporan (db st)))
             (uploads st)) ∨
  (ep = PostLaporan ∧ ∃ up,
     (app v cfg e st ep req).2 = mkState (db st) up ∨
     ∃ r, laporan_pengiriman.id r
          = auto_increment (laporan_pengiriman.id <$> tbl_laporan (db st)) ∧
          (app v cfg e st ep req).2
          = mkState (mkDb (tbl_users (db st)) (tbl_laporan (db st) ++ [r])) up).
Proof.
  destruct ep; unfold app.
  - destruct (credentials_missing req) eqn:Hc.
    { left. by rewrite register_missing. }
    destruct (matching st req) as [|u us] eqn:Hm.
    + destruct (db_fault e) as [err|] eqn:He.
      * left. unfold register, credentials_missing in *. rewrite Hc.
        unfold insert_user. rewrite He. by case_bool_decide.
      * right. left. split; [done|]. split; [done|].
        by rewrite (register_new _ _ _ Hc He Hm).
    + left. apply register_taken; [done|]. by rewrite Hm.
  - left. unfold login. destruct (_ || _); [done|].
    destruct (select_user _ _ _) as [?|[|u us]]; [done|done|].
    by destruct (negb _).
  - destruct (verifyToken v cfg e req) as [res|req1]; [by left|].
    right. right. split; [done|].
    destruct (upload_single_frame v cfg e st req1) as (Hdb & _ & _ & _).
    destruct (upload_single v cfg e st req1) as [st1 req2]. simpl in Hdb.
    exists (uploads st1).
    destruct (bool_decide (status (simpan_laporan v e st1 req2).1 = 200)) eqn:Hs.
    + apply bool_decide_eq_true in Hs.
      right. exists (new_laporan v e st1 req2).
      rewrite (simpan_laporan_saved_inv _ _ _ _ Hs). simpl.
      unfold new_laporan. simpl. by rewrite Hdb.
    + apply bool_decide_eq_false in Hs. left.
      assert ((simpan_laporan v e st1 req2).2 = st1) as ->.
      { revert Hs. unfold simpan_laporan. destruct (_ || _); [done|].
        destruct (file req2); [|done]. destruct (user req2); [|done].
        by destruct (insert_laporan _ _ _ _ _ _ _). }
      rewrite <- Hdb. by destruct st1.
  - destruct (verifyToken v cfg e req) as [res|req1]; [by left|].
    left. unfold history_laporan. destruct (user req1); [|done].
    by destruct (select_laporan _ _ _).
  - left. by destruct v.
  - left. destruct v; [done|]. unfold init_db, create_tables.
    destruct (db_fault e); [done|]. by destruct st.
Qed.

Lemma matching_nil_not_elem st req :
  matching st req = [] →
  default "" (body req !! "username") ∉ users.username <$> tbl_users (db st).
Proof.
  unfold matching. intros Hm (u & Hu & Hin)%list_elem_of_fmap.
  assert (u ∈ filter (λ u, users.username u = default "" (body req !! "username"))
                (tbl_users (db st))) as Hf by by apply list_elem_of_filter.
  rewrite Hm in Hf. by apply elem_of_nil in Hf.
Qed.

Lemma db_wf_step `{L : Libs} v cfg e st ep req :
  db_wf (db st) → db_wf (db (app v cfg e st ep req).2).
Proof.
  intros (Hn & Hi & Hl & Hpi & Hpl).
  destruct (app_effect v cfg e st ep req)
    as [-> | [(_ & Hm & ->) | (_ & up & [-> | (r & Hr & ->)])]];
    unfold db_wf; simpl; try done.
  - rewrite !fmap_app. simpl. repeat split; try done.
    + apply NoDup_app. split; [done|]. split; [|apply NoDup_singleton].
      intros x Hx ->%list_elem_of_singleton.
      by apply (matching_nil_not_elem st req).
    + apply NoDup_app. split; [done|]. split; [|apply NoDup_singleton].
      intros x Hx ->%list_elem_of_singleton.
      apply auto_increment_fresh in Hx. lia.
    + apply Forall_app. split; [done|].
      apply Forall_singleton, auto_increment_pos.
  - rewrite !fmap_app. simpl. repeat split; try done.
    + apply NoDup_app. split; [done|]. split; [|apply NoDup_singleton].
      intros x Hx ->%list_elem_of_singleton. rewrite Hr in Hx.
      apply auto_increment_fresh in Hx. lia.
    + apply Forall_app. split; [done|].
      apply Forall_singleton. rewrite Hr. apply auto_increment_pos.
Qed.

(** X1.  The keys hold in every state the server reaches: from a state
    where user names and ids are unique (the empty database is one), no
    sequence of requests to any route, whatever they carry and whatever
    the clocks, salts and database failures, leaves two rows of [users]
    with the same user name or id, or two rows of [laporan_pengiriman]
    with the same id. *)
Theorem keys_hold_in_every_reached_state `{L : Libs} v cfg trace st :
  db_wf (db st) → db_wf (db (serve v cfg trace st)).
Proof.
  unfold serve. revert st. induction trace as [|[[e ep] req] trace IH]; [done|].
  intros st Hwf. simpl. apply IH. by apply db_wf_step.
Qed.

(** [keys_hold_in_every_reached_state] from the empty database: [alice]
    registers twice, logs in and [bob] registers. *)
Lemma keys_hold_in_every_reached_state_witness :
  db_wf (db (serve (L := Ideal.libs) Pool Sample.cfg
    [ (Sample.env 1700000000000, PostRegister, Sample.credentials "alice" "secret123");
      (Sample.env 1700000001000, PostRegister, Sample.credentials "alice" "hunter2");
      (Sample.env 1700000002000, PostLogin, Sample.credentials "alice" "secret123");
      (Sample.env 1700000003000, PostRegister, Sample.credentials "bob" "hunter2") ]
    Sample.empty)).
Proof.
  apply (keys_hold_in_every_reached_state (L := Ideal.libs)).
  unfold db_wf. simpl. repeat split; constructor.
Defined.

(** X2.  The tables only grow, by at most one row a request: after a
    request to any route the rows of [users] and of [laporan_pengiriman]
    that were there are there unchanged and in place, followed by at most
    one new row in all; so along any sequence of requests a row, once
    inserted, is never changed or deleted. *)
Theorem tables_only_grow `{L : Libs} v cfg :
  (∀ e st ep req, ∃ us ls,
     tbl_users (db (app v cfg e st ep req).2) = tbl_users (db st) ++ us ∧
     tbl_laporan (db (app v cfg e st ep req).2) = tbl_laporan (db st) ++ ls ∧
     (length us + length ls ≤ 1)%nat) ∧
  (∀ trace st,
     tbl_users (db st) `prefix_of` tbl_users (db (serve v cfg trace st)) ∧
     tbl_laporan (db st) `prefix_of` tbl_laporan (db (serve v cfg trace st))).
Proof.
  assert (∀ e st ep req, ∃ us ls,
     tbl_users (db (app v cfg e st ep req).2) = tbl_users (db st) ++ us ∧
     tbl_laporan (db (app v cfg e st ep req).2) = tbl_laporan (db st) ++ ls ∧
     (length us + length ls ≤ 1)%nat) as Hstep.
  { intros e st ep req.
    destruct (app_effect v cfg e st ep req)
      as [-> | [(_ & _ & ->) | (_ & up & [-> | (r & _ & ->)])]]; simpl.
    - exists [], []. rewrite !app_nil_r. split; [done|]. split; [done|]. simpl. lia.
    - exists [new_user e st req], []. rewrite app_nil_r.
      split; [done|]. split; [done|]. simpl. lia.
    - exists [], []. rewrite !app_nil_r. split; [done|]. split; [done|]. simpl. lia.
    - exists [], [r]. rewrite app_nil_r.
      split; [done|]. split; [done|]. simpl. lia. }
  split; [done|].
  intros trace. unfold serve.
  induction trace as [|[[e ep] req] trace IH]; intros st; [done|]. simpl.
  destruct (Hstep e st ep req) as (us & ls & Hu & Hl & _).
  destruct (IH (app v cfg e st ep req).2) as [Hpu Hpl].
  split.
  - etrans; [|exact Hpu]. rewrite Hu. by apply prefix_app_r.
  - etrans; [|exact Hpl]. rewrite Hl. by apply prefix_app_r.
Qed.

(** X3.  What each route leaves alone, whatever the request: the login,
    the history, [GET /] and [/init-db] change nothing of the state; a
    registration changes neither [laporan_pengiriman] nor the uploads
    directory; a report changes nothing of [users]. *)
Theorem routes_frame `{L : Libs} v cfg e st ep req :
  match ep with
  | PostLogin | GetLaporan | GetRoot | GetInitDb =>
      (app v cfg e st ep req).2 = st
  | PostRegister =>
      tbl_laporan (db (app v cfg e st ep req).2) = tbl_laporan (db st) ∧
      uploads (app v cfg e st ep req).2 = uploads st
  | PostLaporan =>
      tbl_users (db (app v cfg e st ep req).2) = tbl_users (db st)
  end.
Proof.
  destruct (app_effect v cfg e st ep req)
    as [-> | [(-> & _ & ->) | (-> & up & [-> | (r & _ & ->)])]];
    first [by destruct ep | done].
Qed.

(** ** The life of a token *)

(** A login answered with a token has signed the id and user name of a
    row of [users] with the user name of the request. *)
Lemma login_ok_inv `{L : Libs} v cfg e st req m token :
  (login v cfg e st req).1 = mkRes 200 (JsonLogin m token) →
  ∃ user, user ∈ tbl_users (db st) ∧
          users.username user = default "" (body req !! "username") ∧
          token = jwt_sign (users.id user) (users.username user)
                    (SECRET_KEY v cfg) (date_now e).
Proof.
  unfold login. destruct (_ || _); [done|]. unfold select_user.
  destruct (db_fault e); [done|].
  destruct (filter _ _) as [|user rest] eqn:Hm; [done|].
  destruct (negb _); [done|]. simpl. intros [= _ <-].
  assert (user ∈ filter (λ u, users.username u = default "" (body req !! "username"))
                   (tbl_users (db st))) as [Hu Hin]%list_elem_of_filter
    by (rewrite Hm; apply list_elem_of_here).
  by exists user.
Qed.

(** A token of [jwt.sign] whose hour is over is refused. *)
Lemma jwt_verify_sign_expired `{L : Libs} `{!LibLaws L} id username secret t0 t :
  t0 `div` 1000 + 3600 ≤ t `div` 1000 →
  ∃ err, jwt_verify (Some (jwt_sign id username secret t0)) secret t = inl err.
Proof.
  intros Ht. unfold jwt_sign.
  eapply jwt_verify_expired; [apply jwt_decode_encode|done].
Qed.

(** X4.  The token a login returns is good for exactly one hour: sent as
    [Authorization: Bearer token] to the same revision under the same
    configuration, [verifyToken] lets the request through, with
    [req.user] the id and user name of a row of [users] that has the user
    name of the login, while the clock's second is less than 3600 after
    the second of the login; from that second on it answers 403 "Token
    tidak valid". *)
Theorem login_token_lifetime `{L : Libs} `{!LibLaws L} v cfg e0 st req m token e req' :
  (login v cfg e0 st req).1 = mkRes 200 (JsonLogin m token) →
  headers req' !! "authorization" = Some ("Bearer " +:+ token) →
  (date_now e `div` 1000 < date_now e0 `div` 1000 + 3600 →
     ∃ user, user ∈ tbl_users (db st) ∧
       Some (users.username user) = body req !! "username" ∧
       verifyToken v cfg e req'
       = inr (set_user req'
                (authData.mk (users.id user) (users.username user)
                   (date_now e0 `div` 1000) (date_now e0 `div` 1000 + 3600)))) ∧
  (date_now e0 `div` 1000 + 3600 ≤ date_now e `div` 1000 →
     verifyToken v cfg e req' = inl invalid_token).
Proof.
  intros Hlogin Hh.
  assert (∃ s, body req !! "username" = Some s) as [s Hs].
  { revert Hlogin. unfold login. destruct (body req !! "username"); [by eexists|done]. }
  destruct (login_ok_inv _ _ _ _ _ _ _ Hlogin) as (user & Hin & Hu & ->).
  split.
  - intros Ht. exists user. split; [done|]. split.
    { rewrite Hs in Hu |- *. simpl in Hu. by rewrite Hu. }
    by apply verifyToken_bearer.
  - intros Ht. rewrite (verifyToken_present _ _ _ _ _ Hh) by done.
    change ("Bearer " +:+ ?t) with ("Bearer" +:+ " " +:+ t).
    rewrite split_second; [|done|apply jwt_encode_no_space].
    by destruct (jwt_verify_sign_expired (users.id user) (users.username user)
                   (SECRET_KEY v cfg) (date_now e0) (date_now e) Ht) as [err ->].
Qed.

(** [login_token_lifetime] on [Ideal.libs]: the token of [alice] one
    second before the hour is over, and on the hour. *)
Lemma login_token_lifetime_witness :
  verifyToken (L := Ideal.libs) Pool Sample.cfg (Sample.env 1700003599999)
    (Sample.bearer ("Bearer " +:+ Sample.token))
  = inr (set_user (Sample.bearer ("Bearer " +:+ Sample.token)) (Sample.kurir 1)) ∧
  verifyToken (L := Ideal.libs) Pool Sample.cfg (Sample.env 1700003600000)
    (Sample.bearer ("Bearer " +:+ Sample.token)) = inl invalid_token.
Proof.
  split.
  - destruct (login_token_lifetime (L := Ideal.libs) Pool Sample.cfg
                (Sample.env 1700000000000) Sample.registered
                (Sample.credentials "alice" "secret123") "Login sukses" Sample.token
                (Sample.env 1700003599999)
                (Sample.bearer ("Bearer " +:+ Sample.token)))
      as [Hin _]; [vm_compute; reflexivity | reflexivity|].
    destruct Hin as (user & Huser & Hname & Hv); [reflexivity|].
    rewrite Hv. f_equal. f_equal.
    apply list_elem_of_singleton in Huser. by subst user.
  - destruct (login_token_lifetime (L := Ideal.libs) Pool Sample.cfg
                (Sample.env 1700000000000) Sample.registered
                (Sample.credentials "alice" "secret123") "Login sukses" Sample.token
                (Sample.env 1700003600000)
                (Sample.bearer ("Bearer " +:+ Sample.token)))
      as [_ Hout]; [vm_compute; reflexivity | reflexivity|].
    apply Hout. vm_compute. discriminate.
Defined.

(** X5.  Who has registered can log in: after a registration answered 201,
    a login with the same user name and password, at any time the lookup
    is not rejected, is answered 200 with the token that signs the id and
    the user name of the row the registration inserted, an id no earlier
    row has; the login changes nothing. *)
Theorem register_then_login `{L : Libs} `{!LibLaws L} v cfg e1 e2 st req :
  status (register e1 st req).1 = 201 →
  db_fault e2 = None →
  login v cfg e2 (register e1 st req).2 req
  = (mkRes 200 (JsonLogin "Login sukses"
       (jwt_sign (users.id (new_user e1 st req)) (users.username (new_user e1 st req))
          (SECRET_KEY v cfg) (date_now e2))),
     (register e1 st req).2) ∧
  Some (users.username (new_user e1 st req)) = body req !! "username" ∧
  users.id (new_user e1 st req) ∉ users.id <$> tbl_users (db st).
Proof.
  intros (Hc & He & Hm)%register_created_inv He2.
  rewrite (register_new _ _ _ Hc He Hm). cbn [snd]. split; [|split].
  - apply (login_success v cfg e2 _ req (new_user e1 st req) []);
      [done|done| |apply bcrypt_compare_hash].
    by apply matching_after_insert.
  - unfold credentials_missing in Hc.
    apply orb_false_iff in Hc as [(s & Hs & _)%falsy_false _].
    unfold new_user. simpl. by rewrite Hs.
  - unfold new_user. simpl. intros Hin%auto_increment_fresh. lia.
Qed.

(** [register_then_login] on [Ideal.libs]: [bob] registers on the store
    that holds [alice] and logs in a minute later. *)
Lemma register_then_login_witness :
  (login (L := Ideal.libs) Callback Sample.cfg (Sample.env 1700000120000)
     (register (L := Ideal.libs) (Sample.env 1700000060000) Sample.registered
        (Sample.credentials "bob" "hunter2")).2
     (Sample.credentials "bob" "hunter2")).1
  = mkRes 200 (JsonLogin "Login sukses"
      (jwt_sign (L := Ideal.libs) 2 "bob" "kunci_rahasia_akses" 1700000120000)).
Proof.
  destruct (register_then_login (L := Ideal.libs) Callback Sample.cfg
              (Sample.env 1700000060000) (Sample.env 1700000120000)
              Sample.registered (Sample.credentials "bob" "hunter2"))
    as (Hlogin & _ & _); [reflexivity | reflexivity|].
  rewrite Hlogin. reflexivity.
Defined.

(** X6.  With [JWT_SECRET] unset or empty the second revision signs and
    verifies under the constant of the first, so the two accept each
    other's tokens: a token either revision's login returns is let
    through by [verifyToken] of the other, within its hour. *)
Theorem revisions_share_secret `{L : Libs} `{!LibLaws L} cfg cfg' v v'
    e0 st req m token e req' :
  v = Callback ∨ falsy (JWT_SECRET cfg) = true →
  v' = Callback ∨ falsy (JWT_SECRET cfg') = true →
  (login v cfg e0 st req).1 = mkRes 200 (JsonLogin m token) →
  headers req' !! "authorization" = Some ("Bearer " +:+ token) →
  date_now e `div` 1000 < date_now e0 `div` 1000 + 3600 →
  SECRET_KEY v cfg = "kunci_rahasia_akses" ∧
  ∃ p, verifyToken v' cfg' e req' = inr (set_user req' p).
Proof.
  intros Hc Hc' Hlogin Hh Ht.
  assert (∀ w c, w = Callback ∨ falsy (JWT_SECRET c) = true →
                 SECRET_KEY w c = "kunci_rahasia_akses")
    as Hkey by (intros [] c [Hf|Hf]; unfold SECRET_KEY; by rewrite ?Hf).
  split; [by apply Hkey|].
  destruct (login_ok_inv _ _ _ _ _ _ _ Hlogin) as (user & _ & _ & ->).
  rewrite (Hkey v cfg Hc), <- (Hkey v' cfg' Hc') in Hh.
  eexists. by apply verifyToken_bearer.
Qed.

(** [revisions_share_secret] on [Ideal.libs]: the token of the first
    revision at the second, started with an empty [JWT_SECRET]. *)
Lemma revisions_share_secret_witness :
  ∃ p, verifyToken (L := Ideal.libs) Pool (mkConfig (Some "") "/srv")
         (Sample.env 1700000060000) (Sample.bearer ("Bearer " +:+ Sample.token))
       = inr (set_user (Sample.bearer ("Bearer " +:+ Sample.token)) p).
Proof.
  destruct (revisions_share_secret (L := Ideal.libs) Sample.cfg
              (mkConfig (Some "") "/srv") Callback Pool
              (Sample.env 1700000000000) Sample.registered
              (Sample.credentials "alice" "secret123") "Login sukses" Sample.token
              (Sample.env 1700000060000)
              (Sample.bearer ("Bearer " +:+ Sample.token)))
    as [_ Hp];
    [by left | by right | vm_compute; reflexivity | reflexivity
    | reflexivity |].
  exact Hp.
Defined.

(** ** The uploads directory *)

Lemma append_length s t :
  String.length (s +:+ t) = (String.length s + String.length t)%nat.
Proof. induction s as [|a s IH]; simpl; [done|]. by rewrite IH. Qed.

(** Two strings that agree once the same string is appended are equal. *)
Lemma append_inj_l s1 s2 x : s1 +:+ x = s2 +:+ x → s1 = s2.
Proof.
  revert s2. induction s1 as [|a s1 IH]; intros [|b s2] Heq; [done| | |].
  - apply (f_equal String.length) in Heq. rewrite !append_length in Heq.
    simpl in Heq. lia.
  - apply (f_equal String.length) in Heq. rewrite !append_length in Heq.
    simpl in Heq. lia.
  - simpl in Heq. injection Heq as -> Heq. by rewrite (IH _ Heq).
Qed.

Lemma upload_single_file `{L : Libs} v cfg e st req part :
  foto req = Some part →
  upload_single v cfg e st req
  = (mkState (db st) (<[upload_name e part := content part]> (uploads st)),
     set_file req (mkFile (upload_name e part)
                          (uploadDir v cfg +:+ "/" +:+ upload_name e part))).
Proof. unfold upload_single, upload_name. by intros ->. Qed.

(** What the last handler gets of a request [verifyToken] lets through
    with a photo. *)
Lemma app_laporan_with_photo `{L : Libs} v cfg e st req req1 part :
  verifyToken v cfg e req = inr req1 → foto req = Some part →
  ∃ p, req1 = set_user req p ∧
    app v cfg e st PostLaporan req
    = simpan_laporan v e
        (mkState (db st) (<[upload_name e part := content part]> (uploads st)))
        (set_file (set_user req p)
           (mkFile (upload_name e part)
                   (uploadDir v cfg +:+ "/" +:+ upload_name e part))).
Proof.
  intros Hv Hf. destruct (verifyToken_inr _ _ _ _ _ Hv) as [p ->].
  exists p. split; [done|]. unfold app. rewrite Hv.
  by rewrite (upload_single_file v cfg e st (set_user req p) part Hf).
Qed.

(** X7.  The photo is written before the report is checked and is not
    removed when the report is refused: a request [verifyToken] lets
    through that carries a photo but lacks a text field is answered 400
    "Data tidak lengkap!", and one whose insert the database rejects is
    answered 500 "Gagal simpan laporan"; in both cases no row is added
    and the file stays in the uploads directory under its name. *)
Theorem upload_outlives_refusal `{L : Libs} v cfg e st req req1 part :
  verifyToken v cfg e req = inr req1 → foto req = Some part →
  (fields_missing req = true →
     app v cfg e st PostLaporan req
     = (incomplete,
        mkState (db st) (<[upload_name e part := content part]> (uploads st)))) ∧
  (fields_missing req = false → ∀ err, db_fault e = Some err →
     app v cfg e st PostLaporan req
     = (mkRes 500 (JsonError "Gagal simpan laporan"),
        mkState (db st) (<[upload_name e part := content part]> (uploads st)))).
Proof.
  intros Hv Hf.
  destruct (app_laporan_with_photo v cfg e st req req1 part Hv Hf) as (p & _ & ->).
  split.
  - intros Hm. by apply simpan_laporan_incomplete.
  - intros Hm err He. unfold simpan_laporan, fields_missing in *. simpl.
    rewrite Hm. unfold insert_laporan. by rewrite He.
Qed.

(** [upload_outlives_refusal] on [Ideal.libs]: a report with a photo and
    no [latitude], and a complete one while the connection is lost. *)
Lemma upload_outlives_refusal_witness :
  app (L := Ideal.libs) Pool Sample.cfg (Sample.env 1700000060000) Sample.empty
    PostLaporan
    (Sample.report ("Bearer " +:+ Sample.token) "RESI1" "" "106.8" (Some Sample.photo))
  = (incomplete, mkState (mkDb [] []) {[ "1700000060000.jpg" := "JFIF" ]}) ∧
  app (L := Ideal.libs) Pool Sample.cfg (Sample.env_down 1700000060000) Sample.empty
    PostLaporan
    (Sample.report ("Bearer " +:+ Sample.token) "RESI1" "-6.2" "106.8"
       (Some Sample.photo))
  = (mkRes 500 (JsonError "Gagal simpan laporan"),
     mkState (mkDb [] []) {[ "1700000060000.jpg" := "JFIF" ]}).
Proof.
  split.
  - destruct (upload_outlives_refusal (L := Ideal.libs) Pool Sample.cfg
                (Sample.env 1700000060000) Sample.empty
                (Sample.report ("Bearer " +:+ Sample.token) "RESI1" "" "106.8"
                   (Some Sample.photo))
                (set_user (Sample.report ("Bearer " +:+ Sample.token) "RESI1" ""
                   "106.8" (Some Sample.photo)) (Sample.kurir 1))
                Sample.photo) as [Hm _]; [vm_compute; reflexivity | reflexivity|].
    rewrite Hm; [|reflexivity]. vm_compute. reflexivity.
  - destruct (upload_outlives_refusal (L := Ideal.libs) Pool Sample.cfg
                (Sample.env_down 1700000060000) Sample.empty
                (Sample.report ("Bearer " +:+ Sample.token) "RESI1" "-6.2" "106.8"
                   (Some Sample.photo))
                (set_user (Sample.report ("Bearer " +:+ Sample.token) "RESI1" "-6.2"
                   "106.8" (Some Sample.photo)) (Sample.kurir 1))
                Sample.photo) as [_ Hd]; [vm_compute; reflexivity | reflexivity|].
    rewrite (Hd eq_refl Sample.lost eq_refl). vm_compute. reflexivity.
Defined.

(** X8.  A stored report refers to its photo: for a request [verifyToken]
    lets through, with the three text fields, a photo and an insert the
    database accepts, the answer is 200, the photo's content is in the
    uploads directory under [Date.now() + path.extname(originalname)],
    and the one row added has the fields of the request, the id of the
    token's payload as [id_kurir], and as [foto_path] that name, prefixed
    by [uploads/] in the first revision and bare in the second. *)
Theorem report_refers_to_upload `{L : Libs} v cfg e st req req1 part :
  verifyToken v cfg e req = inr req1 → foto req = Some part →
  fields_missing req = false → db_fault e = None →
  ∃ r p,
    user req1 = Some p ∧
    app v cfg e st PostLaporan req
    = (saved,
       mkState (mkDb (tbl_users (db st)) (tbl_laporan (db st) ++ [r]))
               (<[upload_name e part := content part]> (uploads st))) ∧
    uploads (app v cfg e st PostLaporan req).2 !! upload_name e part
    = Some (content part) ∧
    laporan_pengiriman.foto_path r
    = match v with
      | Callback => "uploads/" +:+ upload_name e part
      | Pool => upload_name e part
      end ∧
    laporan_pengiriman.id_kurir r = authData.id p ∧
    Some (laporan_pengiriman.no_resi r) = body req !! "no_resi" ∧
    Some (laporan_pengiriman.latitude r) = body req !! "latitude" ∧
    Some (laporan_pengiriman.longitude r) = body req !! "longitude" ∧
    laporan_pengiriman.created_at r = current_timestamp e.
Proof.
  intros Hv Hf Hm He.
  destruct (app_laporan_with_photo v cfg e st req req1 part Hv Hf) as (p & -> & ->).
  set (st1 := mkState _ _). set (req2 := set_file _ _).
  exists (new_laporan v e st1 req2), p. split; [done|].
  rewrite (simpan_laporan_new v e st1 req2 _ p Hm eq_refl eq_refl He). simpl.
  split; [done|]. split; [apply lookup_insert_eq|].
  unfold fields_missing in Hm.
  apply orb_false_iff in Hm as [[Hr Hla]%orb_false_iff Hlo].
  apply falsy_false in Hr as (? & -> & _).
  apply falsy_false in Hla as (? & -> & _).
  apply falsy_false in Hlo as (? & -> & _).
  by destruct v.
Qed.

(** [report_refers_to_upload] on [Ideal.libs]: the report of courier 1 in
    the first revision. *)
Lemma report_refers_to_upload_witness :
  ∃ r,
    app (L := Ideal.libs) Callback Sample.cfg (Sample.env 1700000060000) Sample.empty
      PostLaporan
      (Sample.report ("Bearer " +:+ Sample.token) "RESI1" "-6.2" "106.8"
         (Some Sample.photo))
    = (saved, mkState (mkDb [] [r]) {[ "1700000060000.jpg" := "JFIF" ]}) ∧
    laporan_pengiriman.foto_path r = "uploads/1700000060000.jpg" ∧
    laporan_pengiriman.id_kurir r = 1 ∧
    laporan_pengiriman.no_resi r = "RESI1".
Proof.
  destruct (report_refers_to_upload (L := Ideal.libs) Callback Sample.cfg
              (Sample.env 1700000060000) Sample.empty
              (Sample.report ("Bearer " +:+ Sample.token) "RESI1" "-6.2" "106.8"
                 (Some Sample.photo))
              (set_user (Sample.report ("Bearer " +:+ Sample.token) "RESI1" "-6.2"
                 "106.8" (Some Sample.photo)) (Sample.kurir 1))
              Sample.photo)
    as (r & p & Hp & Happ & _ & Hpath & Hid & Hresi & _);
    [vm_compute; reflexivity | reflexivity | reflexivity | reflexivity|].
  exists r. split; [|split; [|split]].
  - rewrite Happ. reflexivity.
  - rewrite Hpath. vm_compute. reflexivity.
  - rewrite Hid. injection Hp as <-. reflexivity.
  - injection Hresi as ->. reflexivity.
Defined.

(** X9.  Uploads are named by the millisecond and the extension alone:
    of two photos with the same extension, the second replaces the first
    when both are named in the same millisecond (one file is left, with
    the second content, and both requests refer to it), and both are kept
    under different names otherwise. *)
Theorem upload_names_by_millisecond `{L : Libs} v cfg e1 e2 st req1 req2 part1 part2 :
  foto req1 = Some part1 → foto req2 = Some part2 →
  path_extname (originalname part1) = path_extname (originalname part2) →
  let r1 := upload_single v cfg e1 st req1 in
  let r2 := upload_single v cfg e2 r1.1 req2 in
  (upload_now e1 = upload_now e2 →
     file r1.2 = file r2.2 ∧
     uploads r2.1 = <[upload_name e2 part2 := content part2]> (uploads st)) ∧
  (upload_now e1 ≠ upload_now e2 →
     upload_name e1 part1 ≠ upload_name e2 part2 ∧
     uploads r2.1 !! upload_name e1 part1 = Some (content part1) ∧
     uploads r2.1 !! upload_name e2 part2 = Some (content part2)).
Proof.
  intros H1 H2 Hx r1 r2. subst r1 r2.
  rewrite (upload_single_file v cfg e1 st req1 part1 H1). cbn [fst snd].
  rewrite (upload_single_file v cfg e2 _ req2 part2 H2). cbn [fst snd uploads].
  unfold upload_name. split.
  - intros Ht. rewrite Ht, Hx. split; [done|]. apply insert_insert_eq.
  - intros Ht.
    assert (pretty (upload_now e1) +:+ path_extname (originalname part1)
            ≠ pretty (upload_now e2) +:+ path_extname (originalname part2)) as Hne.
    { rewrite Hx. intros Heq%append_inj_l. by apply (inj pretty) in Heq. }
    split; [done|]. split.
    + rewrite lookup_insert_ne by done. apply lookup_insert_eq.
    + apply lookup_insert_eq.
Qed.

(** [upload_names_by_millisecond] on [Ideal.libs]: two [.jpg] photos in
    the same millisecond, and a millisecond apart. *)
Lemma upload_names_by_millisecond_witness :
  uploads (upload_single (L := Ideal.libs) Pool Sample.cfg (Sample.env 1700000060000)
    (upload_single (L := Ideal.libs) Pool Sample.cfg (Sample.env 1700000060000)
       Sample.empty
       (Sample.report "" "RESI1" "-6.2" "106.8" (Some Sample.photo))).1
    (Sample.report "" "RESI2" "-6.3" "106.9" (Some (mkUpload "lain.jpg" "PNG")))).1
  = {[ "1700000060000.jpg" := "PNG" ]} ∧
  uploads (upload_single (L := Ideal.libs) Pool Sample.cfg (Sample.env 1700000060001)
    (upload_single (L := Ideal.libs) Pool Sample.cfg (Sample.env 1700000060000)
       Sample.empty
       (Sample.report "" "RESI1" "-6.2" "106.8" (Some Sample.photo))).1
    (Sample.report "" "RESI2" "-6.3" "106.9" (Some (mkUpload "lain.jpg" "PNG")))).1
  !! "1700000060000.jpg" = Some "JFIF".
Proof.
  split.
  - destruct (upload_names_by_millisecond (L := Ideal.libs) Pool Sample.cfg
                (Sample.env 1700000060000) (Sample.env 1700000060000) Sample.empty
                (Sample.report "" "RESI1" "-6.2" "106.8" (Some Sample.photo))
                (Sample.report "" "RESI2" "-6.3" "106.9"
                   (Some (mkUpload "lain.jpg" "PNG")))
                Sample.photo (mkUpload "lain.jpg" "PNG"))
      as [Hsame _]; [reflexivity | reflexivity | reflexivity|].
    destruct Hsame as [_ Hup]; [reflexivity|].
    rewrite Hup. vm_compute. reflexivity.
  - destruct (upload_names_by_millisecond (L := Ideal.libs) Pool Sample.cfg
                (Sample.env 1700000060000) (Sample.env 1700000060001) Sample.empty
                (Sample.report "" "RESI1" "-6.2" "106.8" (Some Sample.photo))
                (Sample.report "" "RESI2" "-6.3" "106.9"
                   (Some (mkUpload "lain.jpg" "PNG")))
                Sample.photo (mkUpload "lain.jpg" "PNG"))
      as [_ Hdiff]; [reflexivity | reflexivity | reflexivity|].
    destruct Hdiff as (_ & Hfirst & _); [vm_compute; discriminate|].
    exact Hfirst.
Defined.

(** ** Reports and their couriers *)

(** The last handler leaves the state or appends its row. *)
Lemma simpan_laporan_effect v e st req :
  (simpan_laporan v e st req).2 = st ∨
  (status (simpan_laporan v e st req).1 = 200 ∧
   (simpan_laporan v e st req).2
   = mkState (mkDb (tbl_users (db st))
                   (tbl_laporan (db st) ++ [new_laporan v e st req]))
             (uploads st)).
Proof.
  destruct (bool_decide (status (simpan_laporan v e st req).1 = 200)) eqn:Hs.
  - apply bool_decide_eq_true in Hs. right. split; [done|].
    by rewrite (simpan_laporan_saved_inv _ _ _ _ Hs).
  - apply bool_decide_eq_false in Hs. left.
    revert Hs. unfold simpan_laporan. destruct (_ || _); [done|].
    destruct (file req); [|done]. destruct (user req); [|done].
    by destruct (insert_laporan _ _ _ _ _ _ _).
Qed.

(** The history depends on the state through the courier's rows only. *)
Lemma history_laporan_ext v e st st' req u :
  user req = Some u →
  reports_of st' (authData.id u) = reports_of st (authData.id u) →
  (history_laporan v e st' req).1 = (history_laporan v e st req).1.
Proof.
  intros Hu Hr. unfold history_laporan, select_laporan, reports_of in *.
  rewrite Hu. destruct (db_fault e); [done|]. simpl. by rewrite Hr.
Qed.

(** X10.  A report is filed under the courier of its token and shows in
    no other courier's history: whatever a request to
    [POST /api/laporan] carries, the rows of every courier other than the
    one [verifyToken] found are the same after it, and so is the answer
    to any [GET /api/laporan] of such a courier. *)
Theorem report_invisible_to_others `{L : Libs} v cfg e st req req1 u :
  verifyToken v cfg e req = inr req1 → user req1 = Some u →
  ∀ e' req' req1' u',
    verifyToken v cfg e' req' = inr req1' → user req1' = Some u' →
    authData.id u' ≠ authData.id u →
    reports_of (app v cfg e st PostLaporan req).2 (authData.id u')
    = reports_of st (authData.id u') ∧
    (app v cfg e' (app v cfg e st PostLaporan req).2 GetLaporan req').1
    = (app v cfg e' st GetLaporan req').1.
Proof.
  intros Hv Hu e' req' req1' u' Hv' Hu' Hne.
  assert (reports_of (app v cfg e st PostLaporan req).2 (authData.id u')
          = reports_of st (authData.id u')) as Hsame.
  { unfold app. rewrite Hv.
    destruct (upload_single_frame v cfg e st req1) as (Hdb & _ & Hus & _).
    destruct (upload_single v cfg e st req1) as [st1 req2]. simpl in Hdb, Hus.
    unfold reports_of.
    destruct (simpan_laporan_effect v e st1 req2) as [-> | [_ ->]];
      [by rewrite Hdb|].
    simpl. rewrite filter_app, filter_cons, decide_False, Hdb.
    - simpl. by rewrite app_nil_r.
    - unfold new_laporan. simpl. rewrite Hus, Hu. simpl. congruence. }
  split; [done|].
  unfold app at 1 3. rewrite Hv'. by apply (history_laporan_ext _ _ _ _ _ u').
Qed.

(** [report_invisible_to_others] on [Ideal.libs]: courier 1 files a
    report on the three of [Sample.history]; the history of courier 2 is
    the one before. *)
Lemma report_invisible_to_others_witness :
  (app (L := Ideal.libs) Pool Sample.cfg (Sample.env 1700000090000)
     (app (L := Ideal.libs) Pool Sample.cfg (Sample.env 1700000060000)
        Sample.history PostLaporan
        (Sample.report ("Bearer " +:+ Sample.token) "RESI3" "-6.2" "106.8"
           (Some Sample.photo))).2
     GetLaporan
     (Sample.bearer ("Bearer " +:+
        jwt_sign (L := Ideal.libs) 2 "bob" "kunci_rahasia_akses" 1700000000000))).1
  = (app (L := Ideal.libs) Pool Sample.cfg (Sample.env 1700000090000)
       Sample.history GetLaporan
       (Sample.bearer ("Bearer " +:+
          jwt_sign (L := Ideal.libs) 2 "bob" "kunci_rahasia_akses" 1700000000000))).1.
Proof.
  destruct (report_invisible_to_others (L := Ideal.libs) Pool Sample.cfg
           (Sample.env 1700000060000) Sample.history
           (Sample.report ("Bearer " +:+ Sample.token) "RESI3" "-6.2" "106.8"
              (Some Sample.photo))
           (set_user (Sample.report ("Bearer " +:+ Sample.token) "RESI3" "-6.2"
              "106.8" (Some Sample.photo)) (Sample.kurir 1))
           (Sample.kurir 1) ltac:(vm_compute; reflexivity) eq_refl
           (Sample.env 1700000090000)
           (Sample.bearer ("Bearer " +:+
              jwt_sign (L := Ideal.libs) 2 "bob" "kunci_rahasia_akses" 1700000000000))
           (set_user (Sample.bearer ("Bearer " +:+
              jwt_sign (L := Ideal.libs) 2 "bob" "kunci_rahasia_akses" 1700000000000))
              (authData.mk 2 "bob" 1700000000 1700003600))
           (authData.mk 2 "bob" 1700000000 1700003600)
           ltac:(vm_compute; reflexivity) eq_refl ltac:(vm_compute; discriminate))
    as [_ Hsame].
  exact Hsame.
Defined.

(** X11.  A stored report shows in its courier's history: after a
    submission answered 200, the history of the same courier, when the
    query is not rejected, has the new row and the courier's earlier
    rows, and no others; and when the new row is more recent than all of
    these, it is the first of the array. *)
Theorem history_gains_report v e st req u e' req' u' :
  user req = Some u → status (simpan_laporan v e st req).1 = 200 →
  user req' = Some u' → authData.id u' = authData.id u → db_fault e' = None →
  ∃ rows,
    (history_laporan v e' (simpan_laporan v e st req).2 req').1
    = mkRes 200 (JsonRows rows) ∧
    rows ≡ₚ new_laporan v e st req :: reports_of st (authData.id u) ∧
    (Forall (λ r, laporan_pengiriman.created_at r < current_timestamp e)
            (reports_of st (authData.id u)) →
     head rows = Some (new_laporan v e st req)).
Proof.
  intros Hu Hs Hu' Hid He'.
  rewrite (simpan_laporan_saved_inv _ _ _ _ Hs). cbn [snd].
  set (new := new_laporan v e st req).
  set (st' := mkState _ _).
  assert (reports_of st' (authData.id u') = reports_of st (authData.id u) ++ [new])
    as Hrep.
  { unfold reports_of, st'. simpl. rewrite filter_app, filter_cons, decide_True, Hid.
    - done.
    - unfold new, new_laporan. simpl. by rewrite Hu, Hid. }
  unfold history_laporan, select_laporan. rewrite Hu', He'.
  fold (reports_of st' (authData.id u')). rewrite Hrep.
  set (l := reports_of st (authData.id u) ++ [new]).
  exists (merge_sort created_desc l).
  pose proof (merge_sort_Permutation created_desc l) as Hp.
  pose proof (StronglySorted_merge_sort created_desc l) as Hsorted.
  assert (merge_sort created_desc l ≡ₚ new :: reports_of st (authData.id u)) as Hp'.
  { rewrite Hp. unfold l. by rewrite Permutation_app_comm. }
  split; [done|]. split; [done|].
  intros Hold. destruct (merge_sort created_desc l) as [|h t] eqn:Hrows.
  { by apply Permutation_nil_cons in Hp'. }
  simpl. f_equal.
  assert (h ∈ new :: reports_of st (authData.id u)) as [->|Hin]%elem_of_cons
    by (rewrite <- Hp'; apply list_elem_of_here); [done|].
  exfalso.
  assert (new ∈ h :: t) as [Heq|Hnt]%elem_of_cons
    by (rewrite Hp'; apply list_elem_of_here).
  - rewrite Forall_forall in Hold. specialize (Hold h Hin).
    rewrite <- Heq in Hold. unfold new, new_laporan in Hold. simpl in Hold. lia.
  - apply StronglySorted_cons in Hsorted as [Hall _].
    rewrite Forall_forall in Hall, Hold.
    specialize (Hall new Hnt). specialize (Hold h Hin).
    unfold created_desc, new, new_laporan in Hall. simpl in Hall. lia.
Qed.

(** [history_gains_report]: courier 1 files a report a minute after the
    two of [Sample.history]; it is the first of three. *)
Lemma history_gains_report_witness :
  ∃ rows,
    (history_laporan Pool (Sample.env 1700000090000)
       (simpan_laporan Pool (Sample.env 1700000060000) Sample.history
          (Sample.handled 1 "RESI3" "-6.2" "106.8")).2
       (Sample.identified 1)).1 = mkRes 200 (JsonRows rows) ∧
    length rows = 3%nat ∧
    laporan_pengiriman.no_resi <$> head rows = Some "RESI3".
Proof.
  destruct (history_gains_report Pool (Sample.env 1700000060000) Sample.history
              (Sample.handled 1 "RESI3" "-6.2" "106.8") (Sample.kurir 1)
              (Sample.env 1700000090000) (Sample.identified 1) (Sample.kurir 1))
    as (rows & Hres & Hp & Hhead);
    [reflexivity | reflexivity | reflexivity | reflexivity | reflexivity|].
  exists rows. split; [exact Hres|]. split; [by rewrite Hp|].
  rewrite Hhead; [reflexivity|].
  refine (bool_decide_unpack _ _). vm_compute. exact I.
Defined.

(** ** Status codes and refusals *)

Lemma verifyToken_refusal `{L : Libs} v cfg e req res :
  verifyToken v cfg e req = inl res → res = missing_token ∨ res = invalid_token.
Proof.
  unfold verifyToken. destruct (falsy _); [intros [= <-]; by left|].
  destruct (jwt_verify _ _ _); [intros [= <-]; by right|done].
Qed.

(** X12.  Each route answers with one of its own status codes only:
    201, 400 or 500 for a registration; 200, 400, 401 or 500 for a login;
    200, 400, 403 or 500 for a report; 200, 403 or 500 for the history;
    and, in the second revision, 200 for [GET /] and 200 or 500 for
    [/init-db], which the first revision does not have (404). *)
Theorem status_of_route `{L : Libs} v cfg e st ep req :
  status (app v cfg e st ep req).1 ∈ statuses v ep.
Proof.
  destruct ep; unfold app, statuses.
  - unfold register. destruct (_ || _); [set_solver|].
    destruct (insert_user _ _ _ _); [case_bool_decide|]; set_solver.
  - unfold login. destruct (_ || _); [set_solver|].
    destruct (select_user _ _ _) as [?|[|u us]]; [set_solver|set_solver|].
    destruct (negb _); set_solver.
  - destruct (verifyToken v cfg e req) as [res|req1] eqn:Hv.
    { destruct (verifyToken_refusal _ _ _ _ _ Hv) as [-> | ->]; set_solver. }
    destruct (verifyToken_inr _ _ _ _ _ Hv) as [p ->].
    destruct (upload_single_frame v cfg e st (set_user req p)) as (_ & _ & Hu & _).
    destruct (upload_single v cfg e st (set_user req p)) as [st1 req2].
    simpl in Hu. unfold simpan_laporan. destruct (_ || _); [set_solver|].
    destruct (file req2); [|set_solver]. rewrite Hu. simpl.
    destruct (insert_laporan _ _ _ _ _ _ _); set_solver.
  - destruct (verifyToken v cfg e req) as [res|req1] eqn:Hv.
    { destruct (verifyToken_refusal _ _ _ _ _ Hv) as [-> | ->]; set_solver. }
    destruct (verifyToken_inr _ _ _ _ _ Hv) as [p ->].
    unfold history_laporan. simpl.
    destruct (select_laporan _ _ _); set_solver.
  - destruct v; set_solver.
  - destruct v; [set_solver|]. unfold init_db.
    destruct (create_tables _ _); set_solver.
Qed.

(** X13.  A request a protected route refuses at the token touches
    nothing: whenever [verifyToken] answers, for a missing header as for
    a malformed, forged or expired token, both [POST /api/laporan] and
    [GET /api/laporan] return that answer, a 403, and leave the tables and
    the uploads directory as they were, also when the request carries a
    photo. *)
Theorem refused_token_touches_nothing `{L : Libs} v cfg e st ep req res :
  ep = PostLaporan ∨ ep = GetLaporan →
  verifyToken v cfg e req = inl res →
  app v cfg e st ep req = (res, st) ∧ status res = 403.
Proof.
  intros Hep Hv. split.
  - destruct Hep as [-> | ->]; unfold app; by rewrite Hv.
  - by destruct (verifyToken_refusal _ _ _ _ _ Hv) as [-> | ->].
Qed.

(** [refused_token_touches_nothing] on [Ideal.libs]: a complete report
    with its photo under the token an hour after its issue. *)
Lemma refused_token_touches_nothing_witness :
  app (L := Ideal.libs) Pool Sample.cfg (Sample.env 1700003600000) Sample.history
    PostLaporan
    (Sample.report ("Bearer " +:+ Sample.token) "RESI3" "-6.2" "106.8"
       (Some Sample.photo))
  = (invalid_token, Sample.history).
Proof.
  apply (refused_token_touches_nothing (L := Ideal.libs) Pool Sample.cfg
           (Sample.env 1700003600000) Sample.history PostLaporan
           (Sample.report ("Bearer " +:+ Sample.token) "RESI3" "-6.2" "106.8"
              (Some Sample.photo)) invalid_token);
    [by left | vm_compute; reflexivity].
Defined.

(** X14.  The words of the header: [verifyToken] takes what stands
    between the first and the second space for the token.  So a header
    that ends after the first space, or has a second space right after
    the first, is answered 403 "Token tidak valid" whatever follows, also
    a token [jwt.verify] would accept; and what follows a second space
    after the token is ignored. *)
Theorem authorization_header_words `{L : Libs} v cfg e req :
  (∀ scheme rest,
     lacks " " scheme = true →
     headers req !! "authorization" = Some (scheme +:+ " " +:+ rest) →
     rest = "" ∨ (∃ rest', rest = " " +:+ rest') →
     verifyToken v cfg e req = inl invalid_token) ∧
  (∀ scheme token rest,
     lacks " " scheme = true → lacks " " token = true →
     headers req !! "authorization" = Some (scheme +:+ " " +:+ token +:+ " " +:+ rest) →
     verifyToken v cfg e req =
       match jwt_verify (Some token) (SECRET_KEY v cfg) (date_now e) with
       | inl _ => inl invalid_token
       | inr p => inr (set_user req p)
       end).
Proof.
  split.
  - intros scheme rest Hs Hh Hrest.
    rewrite (verifyToken_present _ _ _ _ _ Hh) by by destruct scheme.
    change (scheme +:+ " " +:+ rest) with (scheme +:+ String " " rest).
    rewrite (split_app _ _ _ Hs).
    by destruct Hrest as [-> | [rest' ->]].
  - intros scheme token rest Hs Ht Hh.
    rewrite (verifyToken_present _ _ _ _ _ Hh) by by destruct scheme.
    change (scheme +:+ " " +:+ token +:+ " " +:+ rest)
      with (scheme +:+ String " " (token +:+ String " " rest)).
    by rewrite (split_app _ _ _ Hs), (split_app _ _ _ Ht).
Qed.

(** [authorization_header_words] on [Ideal.libs]: the token after two
    spaces, the scheme with a space and nothing else, and the token
    followed by more words. *)
Lemma authorization_header_words_witness :
  verifyToken (L := Ideal.libs) Pool Sample.cfg (Sample.env 1700000060000)
    (Sample.bearer ("Bearer  " +:+ Sample.token)) = inl invalid_token ∧
  verifyToken (L := Ideal.libs) Pool Sample.cfg (Sample.env 1700000060000)
    (Sample.bearer "Bearer ") = inl invalid_token ∧
  verifyToken (L := Ideal.libs) Pool Sample.cfg (Sample.env 1700000060000)
    (Sample.bearer ("Bearer " +:+ Sample.token +:+ " and more"))
  = inr (set_user (Sample.bearer ("Bearer " +:+ Sample.token +:+ " and more"))
           (Sample.kurir 1)).
Proof.
  split; [|split].
  - destruct (authorization_header_words (L := Ideal.libs) Pool Sample.cfg
                (Sample.env 1700000060000)
                (Sample.bearer ("Bearer  " +:+ Sample.token))) as [Hbad _].
    apply (Hbad "Bearer" (" " +:+ Sample.token));
      [reflexivity | reflexivity | right; by eexists].
  - destruct (authorization_header_words (L := Ideal.libs) Pool Sample.cfg
                (Sample.env 1700000060000) (Sample.bearer "Bearer ")) as [Hbad _].
    apply (Hbad "Bearer" ""); [reflexivity | reflexivity | by left].
  - destruct (authorization_header_words (L := Ideal.libs) Pool Sample.cfg
                (Sample.env 1700000060000)
                (Sample.bearer ("Bearer " +:+ Sample.token +:+ " and more")))
      as [_ Hmore].
    rewrite (Hmore "Bearer" Sample.token "and more");
      [vm_compute; reflexivity | reflexivity | vm_compute; reflexivity
      | reflexivity].
Defined.

(** X15.  The answers tell whether a user name is registered: with both
    credentials present and no query rejected, a login is answered 401
    "Username tidak ditemukan!" exactly when no row of [users] has the
    user name (a wrong password gets another message), and a
    registration is answered 400 "Username sudah digunakan!" exactly when
    one has. *)
Theorem answers_tell_user_names `{L : Libs} v cfg e st req :
  credentials_missing req = false → db_fault e = None →
  ((login v cfg e st req).1 = mkRes 401 (JsonError "Username tidak ditemukan!")
   ↔ matching st req = []) ∧
  ((register e st req).1 = duplicate_username ↔ matching st req ≠ []).
Proof.
  intros Hc He. split.
  - unfold login, credentials_missing, matching in *. rewrite Hc.
    unfold select_user. rewrite He.
    destruct (filter _ _) as [|u us]; [done|].
    destruct (negb _); split; done.
  - destruct (matching st req) as [|u us] eqn:Hm.
    + rewrite (register_new _ _ _ Hc He Hm). split; done.
    + destruct (register_taken e st req Hc) as (_ & Hdup & _); [by rewrite Hm|].
      rewrite (Hdup He). split; done.
Qed.

(** [answers_tell_user_names] on [Ideal.libs]: [alice], who is
    registered, and [bob], who is not, both with a wrong password. *)
Lemma answers_tell_user_names_witness :
  (login (L := Ideal.libs) Pool Sample.cfg (Sample.env 1700000060000)
     Sample.registered (Sample.credentials "alice" "guess")).1
  ≠ mkRes 401 (JsonError "Username tidak ditemukan!") ∧
  (login (L := Ideal.libs) Pool Sample.cfg (Sample.env 1700000060000)
     Sample.registered (Sample.credentials "bob" "guess")).1
  = mkRes 401 (JsonError "Username tidak ditemukan!").
Proof.
  split.
  - destruct (answers_tell_user_names (L := Ideal.libs) Pool Sample.cfg
                (Sample.env 1700000060000) Sample.registered
                (Sample.credentials "alice" "guess")) as [Hlogin _];
      [reflexivity | reflexivity|].
    intros Hno. apply Hlogin in Hno. vm_compute in Hno. discriminate.
  - destruct (answers_tell_user_names (L := Ideal.libs) Pool Sample.cfg
                (Sample.env 1700000060000) Sample.registered
                (Sample.credentials "bob" "guess")) as [Hlogin _];
      [reflexivity | reflexivity|].
    apply Hlogin. vm_compute. reflexivity.
Defined.
